(** * Heart-risk predictor: the request codec, the inference handler and the
      client's verdict styling

    A shallow embedding of [fastapi_part/main.py] (the [HeartFeatures] model
    and the [/predict] handler) and of the results display of
    [frontend/frontend.py].

    Conventions of the embedding:
    - Python [int] is [Z]; Python [float] is the rational it denotes ([Q]),
      so only finite values are covered and [round] is exact on rationals;
    - Python [str] is [string]; [str.lower] acts on the letters [A]-[Z], which
      is all that matters for a comparison with an ASCII lower-case literal;
    - a [dict] used as a map is a [gmap string _];
    - an exception is a value of [exn]; code that may raise returns a
      [result];
    - the handler runs in a small monad [M] that also records which computed
      fields were evaluated and which model operations were called. *)

From Stdlib Require Import ZArith QArith Qround Qabs Lqa String Ascii List Bool Lia.
From Stdlib Require Import DecimalString.
From stdpp Require Import gmap strings list fin_maps.

Local Open Scope string_scope.

(** ** Exceptions and results *)

Inductive exn : Type :=
| ValueError (msg : string)
| IndexError (msg : string).

Inductive result (A : Type) : Type :=
| Ok (a : A)
| Raise (e : exn).
Arguments Ok {A} a.
Arguments Raise {A} e.

(** ** Strings *)

Module Str.

Definition is_upper (c : ascii) : bool :=
  let n := N_of_ascii c in (65 <=? n)%N && (n <=? 90)%N.

Definition is_lower (c : ascii) : bool :=
  let n := N_of_ascii c in (97 <=? n)%N && (n <=? 122)%N.

Definition lower_ascii (c : ascii) : ascii :=
  if is_upper c then ascii_of_N (N_of_ascii c + 32) else c.

(** [str.lower()] *)
Fixpoint lower (s : string) : string :=
  match s with
  | EmptyString => EmptyString
  | String c s' => String (lower_ascii c) (lower s')
  end.

(** [sub in s] on strings: [sub] occurs in [s] as a contiguous run. *)
Fixpoint contains (sub s : string) : bool :=
  String.prefix sub s ||
  match s with
  | EmptyString => false
  | String _ s' => contains sub s'
  end.

(** The other case of a letter; any other character is left alone. *)
Definition swapcase_ascii (c : ascii) : ascii :=
  if is_upper c then ascii_of_N (N_of_ascii c + 32)
  else if is_lower c then ascii_of_N (N_of_ascii c - 32)
  else c.

Definition same_letter (a b : ascii) : bool :=
  Ascii.eqb a b || Ascii.eqb a (swapcase_ascii b).

(** [s] is a case variant of [t]: same length, and position by position
    the same character up to the case of a letter. *)
Fixpoint case_variant (s t : string) : bool :=
  match s, t with
  | EmptyString, EmptyString => true
  | String a s', String b t' => same_letter a b && case_variant s' t'
  | _, _ => false
  end.

(** Every character, for exhaustive checks. *)
Definition all_ascii : list ascii := List.map ascii_of_nat (seq 0 256).

End Str.

(** ** Numbers *)

(** [round(x, ndigits)] for [0 <= ndigits]: the nearest multiple of
    [10^-ndigits], a tie going to the even one. *)
Definition round_half_even (y : Q) : Z :=
  let f := Qfloor y in
  match (y - inject_Z f ?= 1 # 2)%Q with
  | Lt => f
  | Gt => (f + 1)%Z
  | Eq => if Z.even f then f else (f + 1)%Z
  end.

Definition py_round (x : Q) (ndigits : Z) : Q :=
  let scale := (10 ^ ndigits)%Z in
  Qmake (round_half_even (x * inject_Z scale)) (Z.to_pos scale).

(** ** Values held by a field, a table cell or a JSON member *)

Inductive value : Type :=
| VInt (z : Z)
| VFloat (q : Q)
| VStr (s : string)
| NaN.

(** ** The request model *)

Record HeartFeatures : Type := {
  age : Z;
  sex_label : string;
  cp_label : string;
  trestbps : Q;
  chol : Q;
  fbs_raw : Z;
  restecg_label : string;
  thalachh : Q;
  exang_label : string;
  oldpeak : Q;
  slope : Z;
  ca : Z;
  thal_label : string
}.

(** *** Declared constraints of the input fields *)

Inductive constraint : Type :=
| Ge (bound : Q)
| Le (bound : Q)
| OneOf (choices : list Z).

Definition satisfies (v : value) (c : constraint) : bool :=
  match c, v with
  | Ge b, VInt z => Qle_bool b (inject_Z z)
  | Ge b, VFloat q => Qle_bool b q
  | Le b, VInt z => Qle_bool (inject_Z z) b
  | Le b, VFloat q => Qle_bool q b
  | OneOf l, VInt z => bool_decide (z ∈ l)
  | _, _ => false
  end.

Record FieldInfo : Type := {
  name : string;
  get : HeartFeatures -> value;
  constraints : list constraint
}.

(** The thirteen annotated fields, in declaration order. *)
Definition model_fields : list FieldInfo :=
  [ {| name := "age"; get := fun d => VInt (age d);
       constraints := [Ge 25; Le 90] |};
    {| name := "sex_label"; get := fun d => VStr (sex_label d);
       constraints := [] |};
    {| name := "cp_label"; get := fun d => VStr (cp_label d);
       constraints := [] |};
    {| name := "trestbps"; get := fun d => VFloat (trestbps d);
       constraints := [Ge 80; Le 250] |};
    {| name := "chol"; get := fun d => VFloat (chol d);
       constraints := [Ge 100; Le 600] |};
    {| name := "fbs_raw"; get := fun d => VInt (fbs_raw d);
       constraints := [Ge 60; Le 150] |};
    {| name := "restecg_label"; get := fun d => VStr (restecg_label d);
       constraints := [] |};
    {| name := "thalachh"; get := fun d => VFloat (thalachh d);
       constraints := [Ge 60; Le 220] |};
    {| name := "exang_label"; get := fun d => VStr (exang_label d);
       constraints := [] |};
    {| name := "oldpeak"; get := fun d => VFloat (oldpeak d);
       constraints := [Ge 0.0; Le 6.5] |};
    {| name := "slope"; get := fun d => VInt (slope d);
       constraints := [OneOf [0; 1; 2]%Z] |};
    {| name := "ca"; get := fun d => VInt (ca d);
       constraints := [OneOf [0; 1; 2; 3]%Z] |};
    {| name := "thal_label"; get := fun d => VStr (thal_label d);
       constraints := [] |} ].

(** One entry of a validation error: the field, the constraint it breaks and
    the offending input. *)
Record ErrorDetails : Type := {
  loc : string;
  violated : constraint;
  input : value
}.

(** The first constraint of a field that its value breaks, if any. *)
Definition check_field (d : HeartFeatures) (f : FieldInfo) : list ErrorDetails :=
  match List.find (fun c => negb (satisfies (get f d) c)) (constraints f) with
  | Some c => [ {| loc := name f; violated := c; input := get f d |} ]
  | None => []
  end.

Definition validation_errors (d : HeartFeatures) : list ErrorDetails :=
  List.flat_map (check_field d) model_fields.

(** Validation of a well-typed request body against the field annotations:
    either the model instance or every field error, in field order. *)
Definition model_validate (body : HeartFeatures) : list ErrorDetails + HeartFeatures :=
  match validation_errors body with
  | [] => inr body
  | errs => inl errs
  end.

(** *** Computed fields: the label mappings and the derived flag *)

(** [HeartFeatures.sex] *)
Definition sex (self : HeartFeatures) : result Z :=
  let label := Str.lower (sex_label self) in
  if String.eqb label "male" then Ok 1%Z
  else if String.eqb label "female" then Ok 0%Z
  else Raise (ValueError "Invalid gender label: Must be 'Male' or 'Female'.").

Definition cp_map : gmap string Z :=
  {[ "Typical angina" := 0%Z;
     "Atypical angina" := 1%Z;
     "Non-anginal pain" := 2%Z;
     "Asymptomatic" := 3%Z ]}.

(** [HeartFeatures.cp] *)
Definition cp (self : HeartFeatures) : result Z :=
  match cp_map !! cp_label self with
  | Some code => Ok code
  | None =>
      Raise (ValueError ("Invalid CP label: '" ++ cp_label self
                         ++ "'. Check documentation for valid options."))
  end.

(** [HeartFeatures.fbs] *)
Definition fbs (self : HeartFeatures) : Z :=
  if (120 <? fbs_raw self)%Z then 1%Z else 0%Z.

Definition ecg_map : gmap string Z :=
  {[ "Normal" := 0%Z;
     "ST-T wave abnormality" := 1%Z;
     "Left ventricular hypertrophy" := 2%Z ]}.

(** [HeartFeatures.restecg] *)
Definition restecg (self : HeartFeatures) : result Z :=
  match ecg_map !! restecg_label self with
  | Some code => Ok code
  | None =>
      Raise (ValueError ("Invalid RestECG label: '" ++ restecg_label self ++ "'."))
  end.

(** [HeartFeatures.exang] *)
Definition exang (self : HeartFeatures) : result Z :=
  if String.eqb (Str.lower (exang_label self)) "yes" then Ok 1%Z
  else if String.eqb (Str.lower (exang_label self)) "no" then Ok 0%Z
  else Raise (ValueError "Invalid Exang label: Must be 'Yes' or 'No'.").

Definition thal_map : gmap string Z :=
  {[ "Normal" := 1%Z;
     "Fixed defect" := 2%Z;
     "Reversible defect" := 3%Z ]}.

(** [HeartFeatures.thal] *)
Definition thal (self : HeartFeatures) : result Z :=
  match thal_map !! thal_label self with
  | Some code => Ok code
  | None =>
      Raise (ValueError ("Invalid Thalassemia label: '" ++ thal_label self ++ "'."))
  end.

(** ** Tables and the model pipeline *)

Record DataFrame : Type := {
  columns : list string;
  rows : list (list value)
}.

(** [pd.DataFrame(records, columns=...)]: one row per record, the cells
    picked by column name in the order of [columns]; a column the record
    lacks is filled with [NaN]. *)
Definition pd_DataFrame (records : list (gmap string value))
    (cols : list string) : DataFrame :=
  {| columns := cols;
     rows := List.map (fun r => List.map (fun c => default NaN (r !! c)) cols)
                      records |}.

(** The loaded pipeline, seen through the two operations the handler uses:
    one predicted class per row, and one list of class probabilities per
    row. *)
Record Pipeline : Type := {
  predict : DataFrame -> list Z;
  predict_proba : DataFrame -> list (list Q)
}.

(** Position of the first occurrence of a column name. *)
Fixpoint position (col : string) (cols : list string) : option nat :=
  match cols with
  | [] => None
  | c :: cols' =>
      if String.eqb col c then Some 0 else S <$> position col cols'
  end.

(** [X[col][0]]: the cell of the first row under a named column. *)
Definition cell (X : DataFrame) (col : string) : option value :=
  match rows X !! 0, position col (columns X) with
  | Some row, Some i => row !! i
  | _, _ => None
  end.

(** Loading at start-up: the two candidate paths, tried in order.
    [joblib_load path = None] stands for [FileNotFoundError]; when both
    paths fail the pipeline is [None]. *)
Definition load_model_pipeline (joblib_load : string -> option Pipeline) :
    option Pipeline :=
  match joblib_load "../rf_pipeline.joblib" with
  | Some model => Some model
  | None => joblib_load "rf_pipeline.joblib"
  end.

(** ** The monad of the handler *)

Inductive event : Type :=
| Computed (field : string)
| Predict (X : DataFrame)
| PredictProba (X : DataFrame).

Definition M (A : Type) : Type := (list event * result A)%type.

Definition ret {A} (a : A) : M A := ([], Ok a).

Definition raise {A} (e : exn) : M A := ([], Raise e).

Definition bind {A B} (k : A -> M B) (m : M A) : M B :=
  match m with
  | (t, Raise e) => (t, Raise e)
  | (t, Ok a) => let '(t', r) := k a in ((t ++ t')%list, r)
  end.

#[global] Instance M_ret : MRet M := @ret.
#[global] Instance M_bind : MBind M := @bind.

Definition tell (ev : event) : M unit := ([ev], Ok tt).

Definition lift {A} (r : result A) : M A := ([], r).

(** Reading a computed field runs its property. *)
Definition computed (field : string) (r : result Z) : M Z :=
  tell (Computed field);; lift r.

(** [xs[i]] *)
Definition index {A} (xs : list A) (i : nat) : M A :=
  match xs !! i with
  | Some x => ret x
  | None => raise (IndexError "index out of range")
  end.

(** ** Responses *)

Inductive body : Type :=
| Content (c : gmap string value)
| Detail (errors : list ErrorDetails).

Record Response : Type := JSONResponse {
  status_code : Z;
  content : body
}.

(** ** The [/predict] handler *)

Definition FEATURE_ORDER : list string :=
  [ "age"; "sex"; "cp"; "trestbps"; "chol"; "fbs"; "restecg"; "thalachh";
    "exang"; "oldpeak"; "slope"; "ca"; "thal" ].

(** The table built by the handler; the members of the record are
    evaluated in the order they are written. *)
Definition input_df (data : HeartFeatures) : M DataFrame :=
  sex_ ← computed "sex" (sex data);
  cp_ ← computed "cp" (cp data);
  fbs_ ← computed "fbs" (Ok (fbs data));
  restecg_ ← computed "restecg" (restecg data);
  exang_ ← computed "exang" (exang data);
  thal_ ← computed "thal" (thal data);
  ret (pd_DataFrame
         [ {[ "age" := VInt (age data);
              "sex" := VInt sex_;
              "cp" := VInt cp_;
              "trestbps" := VFloat (trestbps data);
              "chol" := VFloat (chol data);
              "fbs" := VInt fbs_;
              "restecg" := VInt restecg_;
              "thalachh" := VFloat (thalachh data);
              "exang" := VInt exang_;
              "oldpeak" := VFloat (oldpeak data);
              "slope" := VInt (slope data);
              "ca" := VInt (ca data);
              "thal" := VInt thal_ ]} ]
         FEATURE_ORDER).

Definition risk_level_of (prediction : Z) : string :=
  if (prediction =? 1)%Z then "High Risk" else "Low Risk".

Definition predict_heart (model_pipeline : option Pipeline)
    (data : HeartFeatures) : M Response :=
  match model_pipeline with
  | None =>
      ret (JSONResponse 500 (Content {[ "message" := VStr "Model not loaded." ]}))
  | Some model =>
      X ← input_df data;
      tell (Predict X);;
      prediction ← index (predict model X) 0;
      tell (PredictProba X);;
      row ← index (predict_proba model X) 0;
      risk_score ← index row 1;
      ret (JSONResponse 200
             (Content {[ "predicted_category" := VInt prediction;
                         "risk_score_probability" := VFloat (py_round risk_score 4);
                         "risk_level" := VStr (risk_level_of prediction) ]}))
  end.

(** The route: the body is validated against [HeartFeatures] first; a body
    that fails is answered with status 422 and the list of field errors, and
    the handler is not called. *)
Definition post_predict (model_pipeline : option Pipeline)
    (request_body : HeartFeatures) : M Response :=
  match model_validate request_body with
  | inl errs => ret (JSONResponse 422 (Detail errs))
  | inr data => predict_heart model_pipeline data
  end.

(** The status the client sees: that of the response, or 500 (Internal
    Server Error) when an exception escapes the handler. *)
Definition status_served (served : result Response) : Z :=
  match served with
  | Ok r => status_code r
  | Raise _ => 500%Z
  end.

Definition is_client_error (status : Z) : bool :=
  (400 <=? status)%Z && (status <? 500)%Z.

(** ** The client *)

(** The answer [predict_risk] hands to the display when it hands one:
    the decoded body of a good answer. [None] stands for every other
    outcome of the call; [Client.predict_risk] below tells those apart. *)
Definition predict_risk (served : result Response) : option (gmap string value) :=
  match served with
  | Ok (JSONResponse st (Content c)) =>
      if (400 <=? st)%Z then None else Some c
  | _ => None
  end.

Inductive alert : Type :=
| st_error (text : string)
| st_success (text : string).

(** The colour-coded verdict of the results display. *)
Definition risk_alert (risk_level : string) : alert :=
  if Str.contains "High Risk" risk_level
  then st_error ("🔴 WARNING: " ++ risk_level ++ " DETECTED")
  else st_success ("🟢 " ++ risk_level ++ " DETECTED").

(** The same display with the test written as an equality, as the
    specification proposes. *)
Definition risk_alert_by_equality (risk_level : string) : alert :=
  if String.eqb risk_level "High Risk"
  then st_error ("🔴 WARNING: " ++ risk_level ++ " DETECTED")
  else st_success ("🟢 " ++ risk_level ++ " DETECTED").

(** ** The observation domain *)

(** The ranges and enumerations declared on the numeric fields. *)
Definition in_declared_ranges (d : HeartFeatures) : bool :=
  (25 <=? age d)%Z && (age d <=? 90)%Z
  && Qle_bool 80 (trestbps d) && Qle_bool (trestbps d) 250
  && Qle_bool 100 (chol d) && Qle_bool (chol d) 600
  && (60 <=? fbs_raw d)%Z && (fbs_raw d <=? 150)%Z
  && Qle_bool 60 (thalachh d) && Qle_bool (thalachh d) 220
  && Qle_bool 0.0 (oldpeak d) && Qle_bool (oldpeak d) 6.5
  && bool_decide (slope d ∈ [0; 1; 2]%Z)
  && bool_decide (ca d ∈ [0; 1; 2; 3]%Z).

(** The closed label sets: the options of the form's dropdowns, the two
    two-valued labels taken up to case. *)
Definition cp_options : list string :=
  [ "Typical angina"; "Atypical angina"; "Non-anginal pain"; "Asymptomatic" ].

Definition restecg_options : list string :=
  [ "Normal"; "ST-T wave abnormality"; "Left ventricular hypertrophy" ].

Definition thal_options : list string :=
  [ "Normal"; "Fixed defect"; "Reversible defect" ].

Definition sex_in_domain (d : HeartFeatures) : bool :=
  Str.case_variant (sex_label d) "male" || Str.case_variant (sex_label d) "female".

Definition exang_in_domain (d : HeartFeatures) : bool :=
  Str.case_variant (exang_label d) "yes" || Str.case_variant (exang_label d) "no".

Definition labels_in_domain (d : HeartFeatures) : bool :=
  sex_in_domain d
  && bool_decide (cp_label d ∈ cp_options)
  && bool_decide (restecg_label d ∈ restecg_options)
  && exang_in_domain d
  && bool_decide (thal_label d ∈ thal_options).

Definition valid_observation (d : HeartFeatures) : bool :=
  in_declared_ranges d && labels_in_domain d.

(** What an error entry must say to identify a field and the constraint the
    field's value breaks. *)
Definition reports_violation (d : HeartFeatures) (e : ErrorDetails) : Prop :=
  exists f, In f model_fields
    /\ loc e = name f
    /\ input e = get f d
    /\ In (violated e) (constraints f)
    /\ satisfies (get f d) (violated e) = false.

(** Events of the two kinds. *)
Definition is_mapping (ev : event) : bool :=
  match ev with Computed _ => true | _ => false end.

Definition is_model_call (ev : event) : bool :=
  match ev with Predict _ | PredictProba _ => true | Computed _ => false end.

(** ** Sample data *)

(** A pipeline that always answers class 1 with probability 0.75. *)
Definition constant_pipeline : Pipeline :=
  {| predict := fun _ => [1%Z];
     predict_proba := fun _ => [[0.25; 0.75]%Q] |}.

Definition sample_observation : HeartFeatures :=
  {| age := 63; sex_label := "Male"; cp_label := "Asymptomatic";
     trestbps := 145; chol := 233; fbs_raw := 150;
     restecg_label := "Left ventricular hypertrophy"; thalachh := 150;
     exang_label := "No"; oldpeak := 2.3; slope := 0; ca := 0;
     thal_label := "Fixed defect" |}.

Definition with_age (a : Z) (d : HeartFeatures) : HeartFeatures :=
  {| age := a; sex_label := sex_label d; cp_label := cp_label d;
     trestbps := trestbps d; chol := chol d; fbs_raw := fbs_raw d;
     restecg_label := restecg_label d; thalachh := thalachh d;
     exang_label := exang_label d; oldpeak := oldpeak d; slope := slope d;
     ca := ca d; thal_label := thal_label d |}.

Definition with_fbs_raw (v : Z) (d : HeartFeatures) : HeartFeatures :=
  {| age := age d; sex_label := sex_label d; cp_label := cp_label d;
     trestbps := trestbps d; chol := chol d; fbs_raw := v;
     restecg_label := restecg_label d; thalachh := thalachh d;
     exang_label := exang_label d; oldpeak := oldpeak d; slope := slope d;
     ca := ca d; thal_label := thal_label d |}.

Definition with_sex_label (l : string) (d : HeartFeatures) : HeartFeatures :=
  {| age := age d; sex_label := l; cp_label := cp_label d;
     trestbps := trestbps d; chol := chol d; fbs_raw := fbs_raw d;
     restecg_label := restecg_label d; thalachh := thalachh d;
     exang_label := exang_label d; oldpeak := oldpeak d; slope := slope d;
     ca := ca d; thal_label := thal_label d |}.

Definition with_thal_label (l : string) (d : HeartFeatures) : HeartFeatures :=
  {| age := age d; sex_label := sex_label d; cp_label := cp_label d;
     trestbps := trestbps d; chol := chol d; fbs_raw := fbs_raw d;
     restecg_label := restecg_label d; thalachh := thalachh d;
     exang_label := exang_label d; oldpeak := oldpeak d; slope := slope d;
     ca := ca d; thal_label := l |}.

(** The sample observation with a thalassemia label outside its set. *)
Definition unknown_thal_observation : HeartFeatures :=
  with_thal_label "Unknown" sample_observation.

(** A start-up at which neither candidate path holds the artifact. *)
Definition no_artifact (path : string) : option Pipeline := None.

(** ** The form and the payload of the client *)

Module Form.

(** [st.number_input]: the widget returns a number between [min_value] and
    [max_value]; [start_value] is its [value=] argument. *)
Record NumberInput (A : Type) : Type := {
  min_value : A;
  max_value : A;
  start_value : A;
  step : A
}.
Arguments min_value {A} _.
Arguments max_value {A} _.
Arguments start_value {A} _.
Arguments step {A} _.

(** [st.selectbox]: the widget returns one of [options]; [start_index] is
    its [index=] argument. *)
Record SelectBox (A : Type) : Type := {
  options : list A;
  start_index : nat
}.
Arguments options {A} _.
Arguments start_index {A} _.

Definition age_input : NumberInput Z :=
  {| min_value := 25%Z; max_value := 90%Z; start_value := 50%Z; step := 1%Z |}.

Definition sex_box : SelectBox string :=
  {| options := [ "Male"; "Female" ]; start_index := 0 |}.

Definition trestbps_input : NumberInput Q :=
  {| min_value := 80.0%Q; max_value := 250.0%Q; start_value := 120.0%Q; step := 5.0%Q |}.

Definition cp_box : SelectBox string :=
  {| options := [ "Typical angina"; "Atypical angina"; "Non-anginal pain";
                  "Asymptomatic" ];
     start_index := 3 |}.

Definition chol_input : NumberInput Q :=
  {| min_value := 100.0%Q; max_value := 600.0%Q; start_value := 200.0%Q; step := 10.0%Q |}.

Definition fbs_raw_input : NumberInput Z :=
  {| min_value := 60%Z; max_value := 150%Z; start_value := 90%Z; step := 1%Z |}.

Definition restecg_box : SelectBox string :=
  {| options := [ "Normal"; "ST-T wave abnormality";
                  "Left ventricular hypertrophy" ];
     start_index := 0 |}.

Definition exang_box : SelectBox string :=
  {| options := [ "No"; "Yes" ]; start_index := 0 |}.

Definition thalachh_input : NumberInput Q :=
  {| min_value := 60.0%Q; max_value := 220.0%Q; start_value := 150.0%Q; step := 5.0%Q |}.

Definition oldpeak_input : NumberInput Q :=
  {| min_value := 0.0%Q; max_value := 6.5%Q; start_value := 1.0%Q; step := 0.1%Q |}.

Definition thal_box : SelectBox string :=
  {| options := [ "Normal"; "Fixed defect"; "Reversible defect" ];
     start_index := 0 |}.

Definition ca_box : SelectBox Z :=
  {| options := [ 0; 1; 2; 3 ]%Z; start_index := 0 |}.

Definition slope_box : SelectBox Z :=
  {| options := [ 0; 1; 2 ]%Z; start_index := 1 |}.

Definition returns_Z (w : NumberInput Z) (v : Z) : bool :=
  (min_value w <=? v)%Z && (v <=? max_value w)%Z.

Definition returns_Q (w : NumberInput Q) (v : Q) : bool :=
  Qle_bool (min_value w) v && Qle_bool v (max_value w).

Definition offers {A} `{EqDecision A} (w : SelectBox A) (v : A) : bool :=
  bool_decide (v ∈ options w).

(** The values the thirteen widgets can hand over on submission. *)
Definition can_submit (f : HeartFeatures) : bool :=
  returns_Z age_input (age f)
  && offers sex_box (sex_label f)
  && returns_Q trestbps_input (trestbps f)
  && offers cp_box (cp_label f)
  && returns_Q chol_input (chol f)
  && returns_Z fbs_raw_input (fbs_raw f)
  && offers restecg_box (restecg_label f)
  && offers exang_box (exang_label f)
  && returns_Q thalachh_input (thalachh f)
  && returns_Q oldpeak_input (oldpeak f)
  && offers thal_box (thal_label f)
  && offers ca_box (ca f)
  && offers slope_box (slope f).

Definition start_choice {A} (w : SelectBox A) (fallback : A) : A :=
  default fallback (options w !! start_index w).

(** The form as it is first shown. *)
Definition untouched : HeartFeatures :=
  {| age := start_value age_input;
     sex_label := start_choice sex_box "";
     cp_label := start_choice cp_box "";
     trestbps := start_value trestbps_input;
     chol := start_value chol_input;
     fbs_raw := start_value fbs_raw_input;
     restecg_label := start_choice restecg_box "";
     thalachh := start_value thalachh_input;
     exang_label := start_choice exang_box "";
     oldpeak := start_value oldpeak_input;
     slope := start_choice slope_box 0%Z;
     ca := start_choice ca_box 0%Z;
     thal_label := start_choice thal_box "" |}.

(** [input_data]: the request payload collected from the widgets. *)
Definition input_data (f : HeartFeatures) : gmap string value :=
  {[ "age" := VInt (age f);
     "sex_label" := VStr (sex_label f);
     "cp_label" := VStr (cp_label f);
     "trestbps" := VFloat (trestbps f);
     "chol" := VFloat (chol f);
     "fbs_raw" := VInt (fbs_raw f);
     "restecg_label" := VStr (restecg_label f);
     "thalachh" := VFloat (thalachh f);
     "exang_label" := VStr (exang_label f);
     "oldpeak" := VFloat (oldpeak f);
     "slope" := VInt (slope f);
     "ca" := VInt (ca f);
     "thal_label" := VStr (thal_label f) ]}.

End Form.

(** ** The exchange over HTTP *)

Inductive payload : Type :=
| Json (j : body)
| Text (s : string).

Record HttpResponse : Type := {
  http_status : Z;
  http_body : payload
}.


(** ** The results display of the client *)

Module Client.

Inductive error : Type :=
| KeyError (key : string)
| TypeError (msg : string)
| ValueError (msg : string)
| JSONDecodeError (msg : string).

(** [predict_risk] on the answer of a reachable server. A 4xx/5xx status
    raises [HTTPError], whose clause reads [response.json()] for its notice
    before returning [None]: on a body that is not JSON that read raises
    inside the clause and escapes. Under a good status the decoded body is
    returned; a body that is not JSON is caught by the last clause. The
    texts of the notices are not part of the value. *)
Definition predict_risk (response : HttpResponse) : error + option body :=
  if (400 <=? http_status response)%Z && (http_status response <? 600)%Z
  then
    match http_body response with
    | Json _ => inr None
    | Text _ => inl (JSONDecodeError "Expecting value")
    end
  else
    match http_body response with
    | Json j => inr (Some j)
    | Text _ => inr None
    end.

(** Decimal digits of a natural number. *)
Definition digits (n : Z) : string :=
  NilZero.string_of_uint (N.to_uint (Z.to_N n)).

(** [f"{x:.2f}"]: sign, integer part, point, two digits; the value is
    rounded to the nearest hundredth, a tie going to the even one. *)
Definition format_2f (x : Q) : string :=
  let n := Z.abs (round_half_even (x * 100%Q)) in
  (match (x ?= 0)%Q with Lt => "-" | _ => "" end)
  ++ digits (n / 100) ++ "."
  ++ digits (n mod 100 / 10) ++ digits (n mod 10).

(** [f"{risk_prob * 100:.2f}%"] *)
Definition percent (risk_prob : value) : error + string :=
  match risk_prob with
  | VFloat q => inr (format_2f (q * 100%Q) ++ "%")
  | VInt z => inr (format_2f (inject_Z (z * 100)) ++ "%")
  | VStr _ => inl (ValueError "Unknown format code 'f' for object of type 'str'")
  | NaN => inr "nan%"
  end.

Record View : Type := {
  subheader : string;
  banner : alert;
  assessment : string;
  probability : string;
  info : string
}.

(** What is drawn after a submission: nothing when [predict_risk] gave
    [None] or an empty object, else the verdict read from the answer. *)
Definition results_display (result : option (gmap string value)) :
    error + option View :=
  match result with
  | None => inr None
  | Some r =>
      if (size r =? 0)%nat then inr None
      else
        match r !! "risk_level" with
        | None => inl (KeyError "risk_level")
        | Some risk_level =>
            match r !! "risk_score_probability" with
            | None => inl (KeyError "risk_score_probability")
            | Some risk_prob =>
                match risk_level with
                | VStr level =>
                    match percent risk_prob with
                    | inl e => inl e
                    | inr shown =>
                        inr (Some {| subheader := "Prediction Results";
                                     banner := risk_alert level;
                                     assessment := level;
                                     probability := shown;
                                     info := "Remember: This prediction is generated by an ML model and is NOT a substitute for professional medical advice." |})
                    end
                | _ => inl (TypeError "argument is not iterable")
                end
            end
        end
  end.


End Client.

(** The six computed fields, in the order the handler reads them. *)
Definition mapping_events : list event :=
  [ Computed "sex"; Computed "cp"; Computed "fbs"; Computed "restecg";
    Computed "exang"; Computed "thal" ].

(** * Properties *)

(** ** Case variants and [lower] *)

Module StrFacts.
Import Str.

Lemma in_all_ascii (a : ascii) : In a all_ascii.
Proof.
  unfold all_ascii. rewrite <- (ascii_nat_embedding a).
  apply in_map, in_seq. pose proof (nat_ascii_bounded a). lia.
Qed.

Lemma same_letter_lower (a b : ascii) :
  same_letter a b = Ascii.eqb (lower_ascii a) (lower_ascii b).
Proof.
  assert (H : forallb (fun x => forallb (fun y =>
                Bool.eqb (same_letter x y)
                         (Ascii.eqb (lower_ascii x) (lower_ascii y)))
                all_ascii) all_ascii = true) by (vm_compute; reflexivity).
  rewrite forallb_forall in H. specialize (H a (in_all_ascii a)).
  rewrite forallb_forall in H. specialize (H b (in_all_ascii b)).
  now apply Bool.eqb_prop in H.
Qed.

Lemma case_variant_lower (s t : string) :
  case_variant s t = String.eqb (lower s) (lower t).
Proof.
  revert t. induction s as [|a s IH]; intros [|b t]; simpl; try reflexivity.
  rewrite same_letter_lower, IH.
  destruct (Ascii.eqb (lower_ascii a) (lower_ascii b)); reflexivity.
Qed.

(** Against a literal already in lower case, being a case variant is what
    the comparison after [lower] tests. *)
Lemma case_variant_literal (s t : string) :
  lower t = t -> case_variant s t = String.eqb (lower s) t.
Proof. intros H. rewrite case_variant_lower, H. reflexivity. Qed.

End StrFacts.

(** ** Request validation *)

Lemma Qle_bool_inject_Z (a b : Z) :
  Qle_bool (inject_Z a) (inject_Z b) = (a <=? b)%Z.
Proof. unfold Qle_bool; simpl. now rewrite !Z.mul_1_r. Qed.

Lemma validation_errors_nil (d : HeartFeatures) :
  validation_errors d = [] <-> in_declared_ranges d = true.
Proof.
  unfold validation_errors, in_declared_ranges, model_fields, check_field.
  cbn [flat_map find get constraints name satisfies app].
  change 25%Q with (inject_Z 25). change 90%Q with (inject_Z 90).
  change 60%Q with (inject_Z 60) at 1. change 150%Q with (inject_Z 150).
  rewrite !Qle_bool_inject_Z.
  repeat match goal with
  | |- context [negb ?b] =>
      destruct b; cbn [negb andb app];
      [ | split; intro; discriminate ]
  end.
  split; reflexivity.
Qed.

Lemma model_validate_ok (d : HeartFeatures) :
  in_declared_ranges d = true -> model_validate d = inr d.
Proof.
  intros H. apply validation_errors_nil in H.
  unfold model_validate. now rewrite H.
Qed.

Lemma validation_errors_sound (d : HeartFeatures) (e : ErrorDetails) :
  In e (validation_errors d) -> reports_violation d e.
Proof.
  unfold validation_errors. rewrite in_flat_map.
  intros (f & Hf & He). unfold check_field in He.
  destruct (find _ _) as [c|] eqn:Hfind; [ | destruct He ].
  destruct He as [<- | []]. apply find_some in Hfind as [Hc Hv].
  exists f. cbn. repeat split; try assumption.
  now apply negb_true_iff in Hv.
Qed.

Lemma model_validate_errors (d : HeartFeatures) :
  in_declared_ranges d = false ->
  exists errs, model_validate d = inl errs
    /\ errs <> []
    /\ Forall (reports_violation d) errs.
Proof.
  intros H. unfold model_validate.
  destruct (validation_errors d) as [|e errs] eqn:E.
  - apply validation_errors_nil in E. congruence.
  - exists (e :: errs). repeat split; [ discriminate | ].
    apply Forall_forall. intros x Hx. apply validation_errors_sound.
    rewrite E. now apply list_elem_of_In.
Qed.

(** ** The label mappings *)

(** Split on each comparison of [s] with a literal key; the case where [s]
    is the key is closed by evaluating the lookup. *)
Ltac label_cases s :=
  repeat match goal with
         | |- context [String.eqb s ?l] =>
             destruct (String.eqb_spec s l) as [-> | ?]; [ reflexivity | ]
         end.

Lemma cp_map_lookup (s : string) :
  cp_map !! s =
    if String.eqb s "Typical angina" then Some 0%Z
    else if String.eqb s "Atypical angina" then Some 1%Z
    else if String.eqb s "Non-anginal pain" then Some 2%Z
    else if String.eqb s "Asymptomatic" then Some 3%Z
    else None.
Proof.
  label_cases s.
  unfold cp_map. by simplify_map_eq.
Qed.

Lemma ecg_map_lookup (s : string) :
  ecg_map !! s =
    if String.eqb s "Normal" then Some 0%Z
    else if String.eqb s "ST-T wave abnormality" then Some 1%Z
    else if String.eqb s "Left ventricular hypertrophy" then Some 2%Z
    else None.
Proof.
  label_cases s.
  unfold ecg_map. by simplify_map_eq.
Qed.

Lemma thal_map_lookup (s : string) :
  thal_map !! s =
    if String.eqb s "Normal" then Some 1%Z
    else if String.eqb s "Fixed defect" then Some 2%Z
    else if String.eqb s "Reversible defect" then Some 3%Z
    else None.
Proof.
  label_cases s.
  unfold thal_map. by simplify_map_eq.
Qed.

Lemma sex_case_variant (d : HeartFeatures) :
  sex d =
    if Str.case_variant (sex_label d) "male" then Ok 1%Z
    else if Str.case_variant (sex_label d) "female" then Ok 0%Z
    else Raise (ValueError "Invalid gender label: Must be 'Male' or 'Female'.").
Proof.
  unfold sex. now rewrite !StrFacts.case_variant_literal by reflexivity.
Qed.

Lemma exang_case_variant (d : HeartFeatures) :
  exang d =
    if Str.case_variant (exang_label d) "yes" then Ok 1%Z
    else if Str.case_variant (exang_label d) "no" then Ok 0%Z
    else Raise (ValueError "Invalid Exang label: Must be 'Yes' or 'No'.").
Proof.
  unfold exang. now rewrite !StrFacts.case_variant_literal by reflexivity.
Qed.

Lemma elem_of_eqb (s : string) (l : list string) :
  bool_decide (s ∈ l) = existsb (String.eqb s) l.
Proof.
  induction l as [|x l IH]; cbn [existsb].
  - apply bool_decide_eq_false_2, not_elem_of_nil.
  - rewrite <- IH. destruct (String.eqb_spec s x) as [-> | Hne]; cbn [orb].
    + apply bool_decide_eq_true_2. left.
    + apply bool_decide_ext. rewrite elem_of_cons. intuition congruence.
Qed.

(** Each mapping yields a code of its documented range exactly on the
    labels of its closed set, and raises a [ValueError] on any other. *)
Lemma sex_total (d : HeartFeatures) :
  if sex_in_domain d
  then exists z, sex d = Ok z /\ (z = 0 \/ z = 1)%Z
  else exists msg, sex d = Raise (ValueError msg).
Proof.
  rewrite sex_case_variant. unfold sex_in_domain.
  destruct (Str.case_variant _ "male"); simpl; [ eauto | ].
  destruct (Str.case_variant _ "female"); simpl; eauto.
Qed.

Lemma exang_total (d : HeartFeatures) :
  if exang_in_domain d
  then exists z, exang d = Ok z /\ (z = 0 \/ z = 1)%Z
  else exists msg, exang d = Raise (ValueError msg).
Proof.
  rewrite exang_case_variant. unfold exang_in_domain.
  destruct (Str.case_variant _ "yes"); simpl; [ eauto | ].
  destruct (Str.case_variant _ "no"); simpl; eauto.
Qed.

Lemma cp_total (d : HeartFeatures) :
  if bool_decide (cp_label d ∈ cp_options)
  then exists z, cp d = Ok z /\ (0 <= z <= 3)%Z
  else exists msg, cp d = Raise (ValueError msg).
Proof.
  rewrite elem_of_eqb. unfold cp. rewrite cp_map_lookup. simpl.
  repeat (destruct (String.eqb (cp_label d) _); simpl;
          [ eexists; split; [ reflexivity | lia ] | ]).
  eauto.
Qed.

Lemma restecg_total (d : HeartFeatures) :
  if bool_decide (restecg_label d ∈ restecg_options)
  then exists z, restecg d = Ok z /\ (0 <= z <= 2)%Z
  else exists msg, restecg d = Raise (ValueError msg).
Proof.
  rewrite elem_of_eqb. unfold restecg. rewrite ecg_map_lookup. simpl.
  repeat (destruct (String.eqb (restecg_label d) _); simpl;
          [ eexists; split; [ reflexivity | lia ] | ]).
  eauto.
Qed.

Lemma thal_total (d : HeartFeatures) :
  if bool_decide (thal_label d ∈ thal_options)
  then exists z, thal d = Ok z /\ (1 <= z <= 3)%Z
  else exists msg, thal d = Raise (ValueError msg).
Proof.
  rewrite elem_of_eqb. unfold thal. rewrite thal_map_lookup. simpl.
  repeat (destruct (String.eqb (thal_label d) _); simpl;
          [ eexists; split; [ reflexivity | lia ] | ]).
  eauto.
Qed.

Lemma fbs_flag (d : HeartFeatures) : (fbs d = 0 \/ fbs d = 1)%Z.
Proof. unfold fbs. destruct (120 <? fbs_raw d)%Z; auto. Qed.

(** ** The table built by the handler *)

Lemma input_df_ok (d : HeartFeatures) (s c r e t : Z) :
  sex d = Ok s -> cp d = Ok c -> restecg d = Ok r ->
  exang d = Ok e -> thal d = Ok t ->
  input_df d =
    ( [ Computed "sex"; Computed "cp"; Computed "fbs"; Computed "restecg";
        Computed "exang"; Computed "thal" ],
      Ok {| columns := FEATURE_ORDER;
            rows := [ [ VInt (age d); VInt s; VInt c; VFloat (trestbps d);
                        VFloat (chol d); VInt (fbs d); VInt r;
                        VFloat (thalachh d); VInt e; VFloat (oldpeak d);
                        VInt (slope d); VInt (ca d); VInt t ] ] |} ).
Proof.
  intros Hs Hc Hr He Ht. unfold input_df. rewrite Hs, Hc, Hr, He, Ht.
  vm_compute. reflexivity.
Qed.

Lemma labels_in_domain_codes (d : HeartFeatures) :
  labels_in_domain d = true ->
  exists s c r e t,
    sex d = Ok s /\ cp d = Ok c /\ restecg d = Ok r
    /\ exang d = Ok e /\ thal d = Ok t
    /\ (s = 0 \/ s = 1)%Z /\ (0 <= c <= 3)%Z /\ (0 <= r <= 2)%Z
    /\ (e = 0 \/ e = 1)%Z /\ (1 <= t <= 3)%Z.
Proof.
  unfold labels_in_domain. rewrite !andb_true_iff.
  intros [[[[Hs Hc] Hr] He] Ht].
  pose proof (sex_total d) as Ps. rewrite Hs in Ps.
  pose proof (cp_total d) as Pc. rewrite Hc in Pc.
  pose proof (restecg_total d) as Pr. rewrite Hr in Pr.
  pose proof (exang_total d) as Pe. rewrite He in Pe.
  pose proof (thal_total d) as Pt. rewrite Ht in Pt.
  destruct Ps as (s & ? & ?), Pc as (c & ? & ?), Pr as (r & ? & ?),
           Pe as (e & ? & ?), Pt as (t & ? & ?).
  exists s, c, r, e, t. tauto.
Qed.

(** A label outside its set makes the construction of the table raise. *)
Lemma input_df_raises (d : HeartFeatures) :
  labels_in_domain d = false ->
  exists msg, snd (input_df d) = Raise (ValueError msg).
Proof.
  unfold labels_in_domain. intros H.
  pose proof (sex_total d) as Ps. pose proof (cp_total d) as Pc.
  pose proof (restecg_total d) as Pr. pose proof (exang_total d) as Pe.
  pose proof (thal_total d) as Pt. unfold input_df.
  destruct (sex_in_domain d);
    [ destruct Ps as (s & -> & _)
    | destruct Ps as (msg & ->); exists msg; reflexivity ].
  destruct (bool_decide (cp_label d ∈ cp_options));
    [ destruct Pc as (c & -> & _)
    | destruct Pc as (msg & ->); exists msg; reflexivity ].
  destruct (bool_decide (restecg_label d ∈ restecg_options));
    [ destruct Pr as (r & -> & _)
    | destruct Pr as (msg & ->); exists msg; reflexivity ].
  destruct (exang_in_domain d);
    [ destruct Pe as (e & -> & _)
    | destruct Pe as (msg & ->); exists msg; reflexivity ].
  destruct (bool_decide (thal_label d ∈ thal_options));
    [ discriminate H
    | destruct Pt as (msg & ->); exists msg; reflexivity ].
Qed.

(** Building the table calls no model operation. *)
Lemma input_df_no_model_call (d : HeartFeatures) :
  forallb is_mapping (fst (input_df d)) = true.
Proof.
  unfold input_df.
  destruct (sex d), (cp d), (restecg d), (exang d), (thal d); reflexivity.
Qed.

Lemma mapping_not_model_call (t : list event) :
  forallb is_mapping t = true -> existsb is_model_call t = false.
Proof.
  induction t as [|[f | X | X] t IH]; simpl; try discriminate; auto.
Qed.

(** ** The handler *)

Lemma predict_heart_unloaded (d : HeartFeatures) :
  predict_heart None d =
    ([], Ok (JSONResponse 500 (Content {[ "message" := VStr "Model not loaded." ]}))).
Proof. reflexivity. Qed.

Lemma predict_heart_raises (m : Pipeline) (d : HeartFeatures) (e : exn) :
  snd (input_df d) = Raise e ->
  predict_heart (Some m) d = (fst (input_df d), Raise e).
Proof.
  unfold predict_heart. destruct (input_df d) as [t [X | e']]; simpl.
  - discriminate.
  - now intros [= ->].
Qed.

Lemma predict_heart_ok (m : Pipeline) (d : HeartFeatures) (t : list event)
    (X : DataFrame) (prediction : Z) (row : list Q) (risk_score : Q) :
  input_df d = (t, Ok X) ->
  predict m X !! 0 = Some prediction ->
  predict_proba m X !! 0 = Some row ->
  row !! 1 = Some risk_score ->
  predict_heart (Some m) d =
    ( (t ++ [Predict X; PredictProba X])%list,
      Ok (JSONResponse 200
            (Content {[ "predicted_category" := VInt prediction;
                        "risk_score_probability" := VFloat (py_round risk_score 4);
                        "risk_level" := VStr (risk_level_of prediction) ]})) ).
Proof.
  intros HX Hp Hrow Hs. unfold predict_heart, index.
  rewrite HX. unfold mbind, M_bind, bind, tell, ret.
  rewrite Hp. cbv beta iota zeta. rewrite Hrow. cbv beta iota zeta.
  rewrite Hs. cbn [app]. reflexivity.
Qed.

Lemma predict_heart_ok_inv (m : Pipeline) (d : HeartFeatures)
    (t : list event) (r : Response) :
  predict_heart (Some m) d = (t, Ok r) ->
  exists X prediction row risk_score,
    snd (input_df d) = Ok X
    /\ predict m X !! 0 = Some prediction
    /\ predict_proba m X !! 0 = Some row
    /\ row !! 1 = Some risk_score
    /\ r = JSONResponse 200
             (Content {[ "predicted_category" := VInt prediction;
                         "risk_score_probability" := VFloat (py_round risk_score 4);
                         "risk_level" := VStr (risk_level_of prediction) ]}).
Proof.
  unfold predict_heart, index, mbind, M_bind, bind, tell, ret, raise.
  destruct (input_df d) as [t0 [X | e]]; cbv beta iota zeta;
    [ | intros [=] ].
  destruct (predict m X !! 0) as [p|] eqn:Hp; cbv beta iota zeta;
    [ | intros [=] ].
  destruct (predict_proba m X !! 0) as [row|] eqn:Hrow; cbv beta iota zeta;
    [ | intros [=] ].
  destruct (row !! 1) as [s|] eqn:Hs; cbv beta iota zeta; [ | intros [=] ].
  intros [= <- <-]. exists X, p, row, s. repeat split; assumption.
Qed.

(** ** Rounding *)

Lemma round_half_even_near (y : Q) :
  (Qabs (y - inject_Z (round_half_even y)) <= 1 # 2)%Q.
Proof.
  unfold round_half_even.
  pose proof (Qfloor_le y) as Hlo. pose proof (Qlt_floor y) as Hhi.
  rewrite inject_Z_plus in Hhi. change (inject_Z 1) with 1%Q in Hhi.
  set (f := Qfloor y) in *.
  assert (Hup : (inject_Z (f + 1) == inject_Z f + 1)%Q)
    by (rewrite inject_Z_plus; reflexivity).
  destruct (Qcompare_spec (y - inject_Z f) (1 # 2)) as [E | L | G].
  - destruct (Z.even f); [ | rewrite Hup ]; apply Qabs_case; intros; lra.
  - apply Qabs_case; intros; lra.
  - rewrite Hup. apply Qabs_case; intros; lra.
Qed.

(** [round(x, 4)] is a multiple of [1/10000] at distance at most
    [1/20000] from [x]. *)
Lemma py_round_4 (x : Q) :
  exists k : Z,
    py_round x 4 = (k # 10000)%Q /\ (Qabs (x - (k # 10000)) <= 1 # 20000)%Q.
Proof.
  exists (round_half_even (x * inject_Z 10000)). split; [ reflexivity | ].
  pose proof (round_half_even_near (x * inject_Z 10000)) as H.
  set (k := round_half_even _) in *.
  assert (Hk : (k # 10000 == inject_Z k * (1 # 10000))%Q).
  { unfold Qeq; simpl. lia. }
  rewrite Hk. change (inject_Z 10000) with 10000%Q in H.
  revert H. apply Qabs_case; intros ? H; apply Qabs_case; intros; lra.
Qed.

Lemma predict_heart_calls_predict (m : Pipeline) (d : HeartFeatures)
    (t : list event) (X : DataFrame) :
  input_df d = (t, Ok X) ->
  In (Predict X) (fst (predict_heart (Some m) d)).
Proof.
  intros HX. unfold predict_heart, index, mbind, M_bind, bind, tell, ret, raise.
  rewrite HX. cbv beta iota zeta.
  destruct (predict m X !! 0); cbv beta iota zeta;
    [ destruct (predict_proba m X !! 0) as [row|]; cbv beta iota zeta;
      [ destruct (row !! 1); cbv beta iota zeta | ] | ];
    cbn [fst]; apply in_or_app; right; left; reflexivity.
Qed.

(** * The claims *)

(** ** Request validation and the model (C1, C3, C10) *)

(** X22. A request that violates its declared domain
    never reaches the model: no prediction operation is called for it.
    When the violation is a numeric field out of its range or enumeration,
    the answer is moreover the client error 422 whose entries each name a
    field and a declared constraint which that field's value breaks, and no
    computed field has been evaluated (the trace is empty). *)
Theorem invalid_request_never_reaches_model
    (model : option Pipeline) (b : HeartFeatures) :
  valid_observation b = false ->
  existsb is_model_call (fst (post_predict model b)) = false
  /\ (in_declared_ranges b = false ->
      exists errs,
        post_predict model b = ([], Ok (JSONResponse 422 (Detail errs)))
        /\ errs <> []
        /\ Forall (reports_violation b) errs).
Proof.
  intros H. split.
  - unfold post_predict. destruct (in_declared_ranges b) eqn:R.
    + rewrite (model_validate_ok b R).
      unfold valid_observation in H. rewrite R in H. cbn [andb] in H.
      destruct model as [m|]; [ | reflexivity ].
      destruct (input_df_raises b H) as [msg Hm].
      rewrite (predict_heart_raises m b _ Hm). cbn [fst].
      apply mapping_not_model_call, input_df_no_model_call.
    + destruct (model_validate_errors b R) as (errs & -> & _). reflexivity.
  - intros R. destruct (model_validate_errors b R) as (errs & E & Hne & Hall).
    exists errs. unfold post_predict. rewrite E. auto.
Qed.

Lemma invalid_request_never_reaches_model_witness :
  valid_observation (with_age 10 sample_observation) = false
  /\ existsb is_model_call
       (fst (post_predict (Some constant_pipeline)
               (with_age 10 sample_observation))) = false.
Proof.
  split; [ reflexivity | ].
  apply (invalid_request_never_reaches_model (Some constant_pipeline)
           (with_age 10 sample_observation)).
  reflexivity.
Defined.

(** C1, where the code departs from it. With every numeric field in range
    and the thalassemia label outside its set, the body passes validation,
    the five mappings before [thal] run, and the label's [ValueError]
    escapes the handler: the request is served 500, not the client error
    naming the field that the claim (and the comment on the [raise])
    promise. *)
Lemma label_violation_raises_in_handler :
  in_declared_ranges unknown_thal_observation = true
  /\ bool_decide (thal_label unknown_thal_observation ∈ thal_options) = false
  /\ post_predict (Some constant_pipeline) unknown_thal_observation =
       ( [ Computed "sex"; Computed "cp"; Computed "fbs"; Computed "restecg";
           Computed "exang"; Computed "thal" ],
         Raise (ValueError "Invalid Thalassemia label: 'Unknown'.") )
  /\ is_client_error
       (status_served
          (snd (post_predict (Some constant_pipeline) unknown_thal_observation)))
     = false.
Proof. repeat split; vm_compute; reflexivity. Qed.

(** C3, as the code has it. When both candidate paths fail at start-up,
    every request whose body passes validation is answered with status 500
    and the body [{"message": "Model not loaded."}]; nothing is computed
    (the trace is empty) and nothing is raised. *)
Theorem unloaded_model_answers_500
    (joblib_load : string -> option Pipeline) (b : HeartFeatures) :
  joblib_load "../rf_pipeline.joblib" = None ->
  joblib_load "rf_pipeline.joblib" = None ->
  in_declared_ranges b = true ->
  post_predict (load_model_pipeline joblib_load) b =
    ([], Ok (JSONResponse 500 (Content {[ "message" := VStr "Model not loaded." ]}))).
Proof.
  intros H1 H2 R. unfold load_model_pipeline. rewrite H1, H2.
  unfold post_predict. rewrite (model_validate_ok b R).
  apply predict_heart_unloaded.
Qed.

Lemma unloaded_model_answers_500_witness :
  in_declared_ranges sample_observation = true
  /\ post_predict (load_model_pipeline no_artifact) sample_observation =
       ([], Ok (JSONResponse 500 (Content {[ "message" := VStr "Model not loaded." ]}))).
Proof.
  split; [ reflexivity | ].
  apply (unloaded_model_answers_500 no_artifact sample_observation);
    reflexivity.
Defined.

(** C3 fails as stated: with no model loaded, a request with [age = 10] is
    answered 422 by the validation of the body, not 500. *)
Lemma unloaded_model_out_of_range_is_422 :
  post_predict (load_model_pipeline no_artifact) (with_age 10 sample_observation) =
    ([], Ok (JSONResponse 422
               (Detail [ {| loc := "age"; violated := Ge 25; input := VInt 10 |} ])))
  /\ status_served
       (snd (post_predict (load_model_pipeline no_artifact)
               (with_age 10 sample_observation))) <> 500%Z.
Proof. split; vm_compute; [ reflexivity | discriminate ]. Qed.

(** C10. With no model loaded, a request whose numeric fields are in range
    but with a label outside its set gets the 500 "Model not loaded."
    answer with no computed field evaluated, although the same request
    makes the handler raise the label's [ValueError] under any loaded
    model. *)
Theorem label_errors_masked_when_unloaded (b : HeartFeatures) :
  in_declared_ranges b = true ->
  labels_in_domain b = false ->
  post_predict None b =
    ([], Ok (JSONResponse 500 (Content {[ "message" := VStr "Model not loaded." ]})))
  /\ forall m, exists msg,
       snd (post_predict (Some m) b) = Raise (ValueError msg).
Proof.
  intros R L. unfold post_predict. rewrite (model_validate_ok b R). split.
  - apply predict_heart_unloaded.
  - intros m. destruct (input_df_raises b L) as [msg Hm]. exists msg.
    now rewrite (predict_heart_raises m b _ Hm).
Qed.

Lemma label_errors_masked_when_unloaded_witness :
  labels_in_domain (with_sex_label "Unknown" sample_observation) = false
  /\ post_predict None (with_sex_label "Unknown" sample_observation) =
       ([], Ok (JSONResponse 500 (Content {[ "message" := VStr "Model not loaded." ]}))).
Proof.
  split; [ reflexivity | ].
  apply (label_errors_masked_when_unloaded
           (with_sex_label "Unknown" sample_observation));
    reflexivity.
Defined.

(** ** The codec (C4, C5, C6) *)

(** C4. For a fasting blood sugar within its declared range the derived
    flag is 1 exactly when the measurement exceeds 120, and 0 exactly when
    it does not; 120 gives 0 and 121 gives 1. *)
Theorem fbs_threshold (d : HeartFeatures) :
  (60 <= fbs_raw d <= 150)%Z ->
  (fbs d = 1%Z <-> (120 < fbs_raw d)%Z)
  /\ (fbs d = 0%Z <-> (fbs_raw d <= 120)%Z)
  /\ fbs (with_fbs_raw 120 d) = 0%Z
  /\ fbs (with_fbs_raw 121 d) = 1%Z.
Proof.
  intros _. unfold fbs.
  destruct (Z.ltb_spec 120 (fbs_raw d)); repeat split; intros; try lia;
    reflexivity.
Qed.

Lemma fbs_threshold_witness :
  (60 <= fbs_raw sample_observation <= 150)%Z
  /\ (fbs sample_observation = 1%Z <-> (120 < fbs_raw sample_observation)%Z).
Proof.
  split; [ vm_compute; split; discriminate | ].
  apply (fbs_threshold sample_observation).
  vm_compute; split; discriminate.
Defined.

(** C5. The sex encoding is 1 on every case variant of "male", 0 on every
    case variant of "female", and the "Invalid gender label" [ValueError]
    on every other string; so "Male" gives 1, "FEMALE" gives 0 and
    "Unknown" raises. *)
Theorem sex_encoding (d : HeartFeatures) :
  sex d =
    (if Str.case_variant (sex_label d) "male" then Ok 1%Z
     else if Str.case_variant (sex_label d) "female" then Ok 0%Z
     else Raise (ValueError "Invalid gender label: Must be 'Male' or 'Female'."))
  /\ sex (with_sex_label "Male" d) = Ok 1%Z
  /\ sex (with_sex_label "FEMALE" d) = Ok 0%Z
  /\ sex (with_sex_label "Unknown" d) =
       Raise (ValueError "Invalid gender label: Must be 'Male' or 'Female'.").
Proof.
  split; [ apply sex_case_variant | ]. repeat split; reflexivity.
Qed.

(** C6. The thalassemia encoding is 1 on "Normal", 2 on "Fixed defect",
    3 on "Reversible defect", compared exactly, and a [ValueError] naming
    the label on every other string. *)
Theorem thal_encoding (d : HeartFeatures) :
  thal d =
    (if String.eqb (thal_label d) "Normal" then Ok 1%Z
     else if String.eqb (thal_label d) "Fixed defect" then Ok 2%Z
     else if String.eqb (thal_label d) "Reversible defect" then Ok 3%Z
     else Raise (ValueError ("Invalid Thalassemia label: '"
                             ++ thal_label d ++ "'.")))
  /\ thal (with_thal_label "Fixed defect" d) = Ok 2%Z
  /\ thal (with_thal_label "normal" d) =
       Raise (ValueError "Invalid Thalassemia label: 'normal'.").
Proof.
  split; [ | split; reflexivity ].
  unfold thal. rewrite thal_map_lookup.
  repeat (destruct (String.eqb (thal_label d) _); [ reflexivity | ]).
  reflexivity.
Qed.

(** ** The table fed to the model (C2, C7) *)

(** C2. For every valid observation the handler builds a table of one row
    under the thirteen columns age, sex, cp, trestbps, chol, fbs, restecg,
    thalachh, exang, oldpeak, slope, ca, thal, in that order, the row
    holding the fields and the codes of the labels in the same order, and
    this is the table handed to the model; the sample observation encodes
    to [63,1,3,145,233,1,2,150,0,2.3,0,0,2]. *)
Theorem input_table_columns_in_order (d : HeartFeatures) :
  valid_observation d = true ->
  (exists s c r e t,
     sex d = Ok s /\ cp d = Ok c /\ restecg d = Ok r
     /\ exang d = Ok e /\ thal d = Ok t
     /\ let X :=
          {| columns :=
               [ "age"; "sex"; "cp"; "trestbps"; "chol"; "fbs"; "restecg";
                 "thalachh"; "exang"; "oldpeak"; "slope"; "ca"; "thal" ];
             rows :=
               [ [ VInt (age d); VInt s; VInt c; VFloat (trestbps d);
                   VFloat (chol d); VInt (fbs d); VInt r;
                   VFloat (thalachh d); VInt e; VFloat (oldpeak d);
                   VInt (slope d); VInt (ca d); VInt t ] ] |} in
        snd (input_df d) = Ok X
        /\ forall m, In (Predict X) (fst (predict_heart (Some m) d)))
  /\ snd (input_df sample_observation) =
       Ok {| columns :=
               [ "age"; "sex"; "cp"; "trestbps"; "chol"; "fbs"; "restecg";
                 "thalachh"; "exang"; "oldpeak"; "slope"; "ca"; "thal" ];
             rows :=
               [ [ VInt 63; VInt 1; VInt 3; VFloat 145; VFloat 233; VInt 1;
                   VInt 2; VFloat 150; VInt 0; VFloat 2.3; VInt 0; VInt 0;
                   VInt 2 ] ] |}.
Proof.
  intros H. split; [ | vm_compute; reflexivity ].
  apply andb_true_iff in H as [_ L].
  destruct (labels_in_domain_codes d L)
    as (s & c & r & e & t & Hs & Hc & Hr & He & Ht & _).
  exists s, c, r, e, t. repeat (split; [ assumption | ]).
  pose proof (input_df_ok d s c r e t Hs Hc Hr He Ht) as HX.
  cbv zeta. split.
  - now rewrite HX.
  - intros m. exact (predict_heart_calls_predict m d _ _ HX).
Qed.

Lemma input_table_columns_in_order_witness :
  valid_observation sample_observation = true
  /\ snd (input_df sample_observation) =
       Ok {| columns :=
               [ "age"; "sex"; "cp"; "trestbps"; "chol"; "fbs"; "restecg";
                 "thalachh"; "exang"; "oldpeak"; "slope"; "ca"; "thal" ];
             rows :=
               [ [ VInt 63; VInt 1; VInt 3; VFloat 145; VFloat 233; VInt 1;
                   VInt 2; VFloat 150; VInt 0; VFloat 2.3; VInt 0; VInt 0;
                   VInt 2 ] ] |}.
Proof.
  split; [ reflexivity | ].
  apply (input_table_columns_in_order sample_observation). reflexivity.
Defined.

(** C7. For every valid observation the table's coded cells lie in their
    documented domains (sex, fbs and exang in {0,1}, cp in {0,1,2,3},
    restecg in {0,1,2}, thal in {1,2,3}) and the cells of age, trestbps,
    chol, thalachh, oldpeak, slope and ca hold the input values
    unchanged. *)
Theorem encoded_values_in_domain (d : HeartFeatures) :
  valid_observation d = true ->
  exists X s c f r e t,
    snd (input_df d) = Ok X
    /\ cell X "sex" = Some (VInt s) /\ (s = 0 \/ s = 1)%Z
    /\ cell X "cp" = Some (VInt c) /\ (0 <= c <= 3)%Z
    /\ cell X "fbs" = Some (VInt f) /\ (f = 0 \/ f = 1)%Z
    /\ cell X "restecg" = Some (VInt r) /\ (0 <= r <= 2)%Z
    /\ cell X "exang" = Some (VInt e) /\ (e = 0 \/ e = 1)%Z
    /\ cell X "thal" = Some (VInt t) /\ (1 <= t <= 3)%Z
    /\ cell X "age" = Some (VInt (age d))
    /\ cell X "trestbps" = Some (VFloat (trestbps d))
    /\ cell X "chol" = Some (VFloat (chol d))
    /\ cell X "thalachh" = Some (VFloat (thalachh d))
    /\ cell X "oldpeak" = Some (VFloat (oldpeak d))
    /\ cell X "slope" = Some (VInt (slope d))
    /\ cell X "ca" = Some (VInt (ca d)).
Proof.
  intros H. apply andb_true_iff in H as [_ L].
  destruct (labels_in_domain_codes d L)
    as (s & c & r & e & t & Hs & Hc & Hr & He & Ht & Ds & Dc & Dr & De & Dt).
  pose proof (input_df_ok d s c r e t Hs Hc Hr He Ht) as HX.
  eexists _, s, c, (fbs d), r, e, t. rewrite HX. cbn [snd].
  split; [ reflexivity | ].
  pose proof (fbs_flag d).
  repeat split; try assumption; try lia; try reflexivity.
Qed.

Lemma encoded_values_in_domain_witness :
  valid_observation sample_observation = true
  /\ exists X s c f r e t,
    snd (input_df sample_observation) = Ok X
    /\ cell X "sex" = Some (VInt s) /\ (s = 0 \/ s = 1)%Z
    /\ cell X "cp" = Some (VInt c) /\ (0 <= c <= 3)%Z
    /\ cell X "fbs" = Some (VInt f) /\ (f = 0 \/ f = 1)%Z
    /\ cell X "restecg" = Some (VInt r) /\ (0 <= r <= 2)%Z
    /\ cell X "exang" = Some (VInt e) /\ (e = 0 \/ e = 1)%Z
    /\ cell X "thal" = Some (VInt t) /\ (1 <= t <= 3)%Z
    /\ cell X "age" = Some (VInt (age sample_observation))
    /\ cell X "trestbps" = Some (VFloat (trestbps sample_observation))
    /\ cell X "chol" = Some (VFloat (chol sample_observation))
    /\ cell X "thalachh" = Some (VFloat (thalachh sample_observation))
    /\ cell X "oldpeak" = Some (VFloat (oldpeak sample_observation))
    /\ cell X "slope" = Some (VInt (slope sample_observation))
    /\ cell X "ca" = Some (VInt (ca sample_observation)).
Proof.
  split; [ reflexivity | ].
  apply (encoded_values_in_domain sample_observation). reflexivity.
Defined.

(** ** The verdict (C8, C9) *)

(** C8. When the table is built and the model yields a class for the row
    and a probability for class 1, the handler answers with status 200;
    the answer's risk level is "High Risk" exactly when the class is 1 and
    "Low Risk" otherwise, and its probability is the model's rounded to
    four decimal digits: a multiple of 1/10000 within 1/20000 of it. *)
Theorem successful_prediction_response (m : Pipeline) (d : HeartFeatures)
    (X : DataFrame) (prediction : Z) (row : list Q) (risk_score : Q) :
  snd (input_df d) = Ok X ->
  predict m X !! 0 = Some prediction ->
  predict_proba m X !! 0 = Some row ->
  row !! 1 = Some risk_score ->
  exists (level : string) (rounded : Q),
    snd (predict_heart (Some m) d) =
      Ok (JSONResponse 200
            (Content {[ "predicted_category" := VInt prediction;
                        "risk_score_probability" := VFloat rounded;
                        "risk_level" := VStr level ]}))
    /\ (level = "High Risk" <-> prediction = 1%Z)
    /\ (level = "Low Risk" <-> prediction <> 1%Z)
    /\ rounded = py_round risk_score 4
    /\ exists k : Z,
         rounded = (k # 10000)%Q
         /\ (Qabs (risk_score - (k # 10000)) <= 1 # 20000)%Q.
Proof.
  intros HX Hp Hrow Hs.
  exists (risk_level_of prediction), (py_round risk_score 4).
  destruct (input_df d) as [t r] eqn:E. cbn [snd] in HX. subst r.
  rewrite (predict_heart_ok m d t X prediction row risk_score E Hp Hrow Hs).
  split; [ reflexivity | ].
  unfold risk_level_of.
  destruct (Z.eqb_spec prediction 1) as [-> | Hne].
  - repeat split; try discriminate; try congruence. apply py_round_4.
  - repeat split; try discriminate; try congruence. apply py_round_4.
Qed.

Lemma successful_prediction_response_witness :
  exists (level : string) (rounded : Q),
    snd (predict_heart (Some constant_pipeline) sample_observation) =
      Ok (JSONResponse 200
            (Content {[ "predicted_category" := VInt 1;
                        "risk_score_probability" := VFloat rounded;
                        "risk_level" := VStr level ]}))
    /\ (level = "High Risk" <-> 1%Z = 1%Z)
    /\ (level = "Low Risk" <-> 1%Z <> 1%Z)
    /\ rounded = py_round 0.75 4
    /\ exists k : Z,
         rounded = (k # 10000)%Q
         /\ (Qabs (0.75 - (k # 10000)) <= 1 # 20000)%Q.
Proof.
  eapply (successful_prediction_response constant_pipeline sample_observation
            _ 1%Z [0.25; 0.75]%Q 0.75%Q); reflexivity.
Defined.

(** Every answer the client renders carries one of the two literals. *)
Lemma rendered_risk_level (model : option Pipeline) (b : HeartFeatures)
    (result : gmap string value) (level : string) :
  predict_risk (snd (post_predict model b)) = Some result ->
  result !! "risk_level" = Some (VStr level) ->
  level = "High Risk" \/ level = "Low Risk".
Proof.
  unfold post_predict.
  destruct (model_validate b) as [errs | d]; [ discriminate | ].
  destruct model as [m|]; [ | discriminate ].
  destruct (predict_heart (Some m) d) as [t [r | e]] eqn:E;
    [ | discriminate ].
  apply predict_heart_ok_inv in E
    as (X & p & row & s & _ & _ & _ & _ & ->).
  cbn [snd predict_risk]. intros [= <-] Hl.
  rewrite lookup_insert_ne, lookup_insert_ne, lookup_singleton_eq in Hl
    by discriminate.
  injection Hl as <-. unfold risk_level_of. destruct (p =? 1)%Z; auto.
Qed.

(** C9. On every answer the client renders, that is on every risk level
    the server produces, the containment test ["High Risk" in risk_level]
    agrees with the equality test, and the display written with either
    test shows the same alert. *)
Theorem containment_check_is_equality (model : option Pipeline)
    (b : HeartFeatures) (result : gmap string value) (level : string) :
  predict_risk (snd (post_predict model b)) = Some result ->
  result !! "risk_level" = Some (VStr level) ->
  Str.contains "High Risk" level = String.eqb level "High Risk"
  /\ risk_alert level = risk_alert_by_equality level.
Proof.
  intros Hr Hl.
  destruct (rendered_risk_level model b result level Hr Hl) as [-> | ->];
    split; reflexivity.
Qed.

Lemma containment_check_is_equality_witness :
  predict_risk (snd (post_predict (Some constant_pipeline) sample_observation)) =
    Some {[ "predicted_category" := VInt 1;
            "risk_score_probability" := VFloat (7500 # 10000);
            "risk_level" := VStr "High Risk" ]}
  /\ risk_alert "High Risk" = risk_alert_by_equality "High Risk".
Proof.
  split; [ reflexivity | ].
  apply (containment_check_is_equality (Some constant_pipeline)
           sample_observation
           {[ "predicted_category" := VInt 1;
              "risk_score_probability" := VFloat (7500 # 10000);
              "risk_level" := VStr "High Risk" ]}
           "High Risk"); reflexivity.
Defined.

(** * Further properties of the code *)

(** ** The remaining label mappings *)

(** X1. The chest-pain encoding is 0, 1, 2, 3 on "Typical angina",
    "Atypical angina", "Non-anginal pain", "Asymptomatic", compared exactly
    (case included), and a [ValueError] quoting the label on every other
    string. *)
Theorem cp_encoding (d : HeartFeatures) :
  cp d =
    if String.eqb (cp_label d) "Typical angina" then Ok 0%Z
    else if String.eqb (cp_label d) "Atypical angina" then Ok 1%Z
    else if String.eqb (cp_label d) "Non-anginal pain" then Ok 2%Z
    else if String.eqb (cp_label d) "Asymptomatic" then Ok 3%Z
    else Raise (ValueError ("Invalid CP label: '" ++ cp_label d
                            ++ "'. Check documentation for valid options.")).
Proof.
  unfold cp. rewrite cp_map_lookup.
  repeat (destruct (String.eqb (cp_label d) _); [ reflexivity | ]).
  reflexivity.
Qed.

(** X2. The resting-ECG encoding is 0, 1, 2 on "Normal",
    "ST-T wave abnormality", "Left ventricular hypertrophy", compared
    exactly, and a [ValueError] quoting the label on every other string. *)
Theorem restecg_encoding (d : HeartFeatures) :
  restecg d =
    if String.eqb (restecg_label d) "Normal" then Ok 0%Z
    else if String.eqb (restecg_label d) "ST-T wave abnormality" then Ok 1%Z
    else if String.eqb (restecg_label d) "Left ventricular hypertrophy" then Ok 2%Z
    else Raise (ValueError ("Invalid RestECG label: '" ++ restecg_label d ++ "'.")).
Proof.
  unfold restecg. rewrite ecg_map_lookup.
  repeat (destruct (String.eqb (restecg_label d) _); [ reflexivity | ]).
  reflexivity.
Qed.

(** X3. The exercise-angina encoding is 1 on every case variant of "yes",
    0 on every case variant of "no", and the "Invalid Exang label"
    [ValueError] on every other string. *)
Theorem exang_encoding (d : HeartFeatures) :
  exang d =
    if Str.case_variant (exang_label d) "yes" then Ok 1%Z
    else if Str.case_variant (exang_label d) "no" then Ok 0%Z
    else Raise (ValueError "Invalid Exang label: Must be 'Yes' or 'No'.").
Proof.
  unfold exang. now rewrite !StrFacts.case_variant_literal by reflexivity.
Qed.

(** X4. In each of the three label dictionaries a code belongs to one label
    only: two labels with the same code are the same label. *)
Theorem label_codes_decode (m : gmap string Z) (a b : string) (code : Z) :
  In m [cp_map; ecg_map; thal_map] ->
  m !! a = Some code -> m !! b = Some code -> a = b.
Proof.
  intros [<- | [<- | [<- | []]]].
  - rewrite !cp_map_lookup.
    repeat (match goal with
            | |- context [String.eqb ?s ?l] =>
                destruct (String.eqb_spec s l) as [-> | ?]
            end); congruence.
  - rewrite !ecg_map_lookup.
    repeat (match goal with
            | |- context [String.eqb ?s ?l] =>
                destruct (String.eqb_spec s l) as [-> | ?]
            end); congruence.
  - rewrite !thal_map_lookup.
    repeat (match goal with
            | |- context [String.eqb ?s ?l] =>
                destruct (String.eqb_spec s l) as [-> | ?]
            end); congruence.
Qed.

Lemma label_codes_decode_witness :
  cp_map !! "Asymptomatic" = Some 3%Z
  /\ ("Asymptomatic" = "Asymptomatic").
Proof.
  split; [ reflexivity | ].
  apply (label_codes_decode cp_map "Asymptomatic" "Asymptomatic" 3%Z);
    [ simpl; auto | reflexivity | reflexivity ].
Defined.

(** ** Validation of the body *)

(** X5. A body passes validation exactly when age is in [25,90], trestbps
    in [80,250], chol in [100,600], fbs_raw in [60,150], thalachh in
    [60,220], oldpeak in [0,6.5] (bounds included), slope is 0, 1 or 2 and
    ca is 0, 1, 2 or 3; the five labels play no part. *)
Theorem validation_accepts_iff (b : HeartFeatures) :
  model_validate b = inr b <->
    (25 <= age b <= 90)%Z
    /\ (80 <= trestbps b /\ trestbps b <= 250)%Q
    /\ (100 <= chol b /\ chol b <= 600)%Q
    /\ (60 <= fbs_raw b <= 150)%Z
    /\ (60 <= thalachh b /\ thalachh b <= 220)%Q
    /\ (0.0 <= oldpeak b /\ oldpeak b <= 6.5)%Q
    /\ (slope b = 0 \/ slope b = 1 \/ slope b = 2)%Z
    /\ (ca b = 0 \/ ca b = 1 \/ ca b = 2 \/ ca b = 3)%Z.
Proof.
  assert (Hv : model_validate b = inr b <-> in_declared_ranges b = true).
  { split.
    - unfold model_validate. intros H. apply validation_errors_nil.
      destruct (validation_errors b); [ reflexivity | discriminate ].
    - apply model_validate_ok. }
  rewrite Hv. unfold in_declared_ranges.
  rewrite !andb_true_iff, !Z.leb_le, !Qle_bool_iff, !bool_decide_eq_true.
  rewrite !elem_of_cons, !elem_of_nil. tauto.
Qed.

Lemma errors_follow_fields (d : HeartFeatures) (fs : list FieldInfo) :
  List.map loc (flat_map (check_field d) fs) `sublist_of` List.map name fs.
Proof.
  induction fs as [|f fs IH]; cbn [flat_map List.map]; [ constructor | ].
  unfold check_field at 1.
  destruct (find _ (constraints f)); cbn [app List.map loc].
  - now apply sublist_skip.
  - now apply sublist_cons.
Qed.

(** X6. The constraint errors of a rejected body come in the order the
    fields are declared, with at most one entry per field. *)
Theorem validation_errors_in_field_order (b : HeartFeatures) :
  List.map loc (validation_errors b)
    `sublist_of` [ "age"; "sex_label"; "cp_label"; "trestbps"; "chol";
                   "fbs_raw"; "restecg_label"; "thalachh"; "exang_label";
                   "oldpeak"; "slope"; "ca"; "thal_label" ].
Proof. exact (errors_follow_fields b model_fields). Qed.

(** X7. Every field whose value breaks one of its declared constraints is
    reported, not just the first such field. *)
Theorem every_offending_field_reported (b : HeartFeatures) (f : FieldInfo)
    (c : constraint) :
  In f model_fields ->
  In c (constraints f) ->
  satisfies (get f b) c = false ->
  exists errs e,
    model_validate b = inl errs
    /\ In e errs /\ loc e = name f /\ input e = get f b
    /\ satisfies (get f b) (violated e) = false.
Proof.
  intros Hf Hc Hv.
  assert (He : exists e, In e (check_field b f) /\ loc e = name f
                         /\ input e = get f b
                         /\ satisfies (get f b) (violated e) = false).
  { unfold check_field.
    destruct (find _ (constraints f)) as [c'|] eqn:Hfind.
    - apply find_some in Hfind as [_ Hn]. apply negb_true_iff in Hn.
      eexists. split; [ left; reflexivity | ]. cbn. auto.
    - apply (find_none _ _ Hfind) in Hc. rewrite Hv in Hc. discriminate. }
  destruct He as (e & Hin & Hl & Hi & Hs).
  assert (Hall : In e (validation_errors b)).
  { unfold validation_errors. apply in_flat_map. eauto. }
  unfold model_validate.
  destruct (validation_errors b) as [|e0 errs]; [ destruct Hall | ].
  exists (e0 :: errs), e. auto.
Qed.

Lemma every_offending_field_reported_witness :
  exists errs e,
    model_validate (with_age 10 sample_observation) = inl errs
    /\ In e errs /\ loc e = "age"
    /\ input e = VInt 10
    /\ satisfies (VInt 10) (violated e) = false.
Proof.
  apply (every_offending_field_reported (with_age 10 sample_observation)
           {| name := "age"; get := fun d => VInt (age d);
              constraints := [Ge 25; Le 90] |} (Ge 25));
    [ left; reflexivity | left; reflexivity | reflexivity ].
Defined.

(** ** The handler: order of evaluation, failures and statuses *)

Lemma input_df_ok_trace (d : HeartFeatures) (X : DataFrame) :
  snd (input_df d) = Ok X -> fst (input_df d) = mapping_events.
Proof.
  unfold input_df.
  destruct (sex d), (cp d), (restecg d), (exang d), (thal d);
    cbn; intros H; try discriminate H; reflexivity.
Qed.

Lemma predict_heart_ok_status (m : Pipeline) (d : HeartFeatures)
    (t : list event) (r : Response) :
  predict_heart (Some m) d = (t, Ok r) -> status_code r = 200%Z.
Proof.
  intros E. apply predict_heart_ok_inv in E
    as (X & p & row & s & _ & _ & _ & _ & ->). reflexivity.
Qed.

Lemma predict_heart_ok_labels (m : Pipeline) (d : HeartFeatures)
    (t : list event) (r : Response) :
  predict_heart (Some m) d = (t, Ok r) -> labels_in_domain d = true.
Proof.
  intros E. destruct (labels_in_domain d) eqn:L; [ reflexivity | ].
  destruct (input_df_raises d L) as [msg Hm].
  rewrite (predict_heart_raises m d _ Hm) in E. discriminate E.
Qed.

(** X8. For a body that passes validation, the service answers
    500 "Model not loaded." exactly when both candidate paths failed at
    start-up: an artifact found at either path is used. *)
Theorem degraded_iff_both_paths_fail
    (joblib_load : string -> option Pipeline) (b : HeartFeatures) :
  in_declared_ranges b = true ->
  post_predict (load_model_pipeline joblib_load) b =
    ([], Ok (JSONResponse 500 (Content {[ "message" := VStr "Model not loaded." ]})))
  <-> joblib_load "../rf_pipeline.joblib" = None
      /\ joblib_load "rf_pipeline.joblib" = None.
Proof.
  intros R. unfold post_predict, load_model_pipeline.
  rewrite (model_validate_ok b R).
  destruct (joblib_load "../rf_pipeline.joblib") as [m1|].
  - split; [ intros E | intros [[=] _] ].
    apply predict_heart_ok_status in E. discriminate E.
  - destruct (joblib_load "rf_pipeline.joblib") as [m2|].
    + split; [ intros E | intros [_ [=]] ].
      apply predict_heart_ok_status in E. discriminate E.
    + split; [ auto | intros _; apply predict_heart_unloaded ].
Qed.

Lemma degraded_iff_both_paths_fail_witness :
  in_declared_ranges sample_observation = true
  /\ (post_predict (load_model_pipeline no_artifact) sample_observation =
        ([], Ok (JSONResponse 500 (Content {[ "message" := VStr "Model not loaded." ]})))
      <-> no_artifact "../rf_pipeline.joblib" = None
          /\ no_artifact "rf_pipeline.joblib" = None).
Proof.
  split; [ reflexivity | ].
  apply (degraded_iff_both_paths_fail no_artifact sample_observation).
  reflexivity.
Defined.

(** X9. On a request that succeeds, the six computed fields are read first,
    in the order sex, cp, fbs, restecg, exang, thal, and then each model
    operation is called once, classification before probabilities, both
    on the one table that was built. *)
Theorem model_called_once_on_one_table (m : Pipeline) (d : HeartFeatures)
    (X : DataFrame) (prediction : Z) (row : list Q) (risk_score : Q) :
  snd (input_df d) = Ok X ->
  predict m X !! 0 = Some prediction ->
  predict_proba m X !! 0 = Some row ->
  row !! 1 = Some risk_score ->
  fst (predict_heart (Some m) d) =
    [ Computed "sex"; Computed "cp"; Computed "fbs"; Computed "restecg";
      Computed "exang"; Computed "thal"; Predict X; PredictProba X ].
Proof.
  intros HX Hp Hrow Hs. pose proof (input_df_ok_trace d X HX) as Ht.
  destruct (input_df d) as [t r] eqn:E. cbn [fst snd] in *. subst t r.
  rewrite (predict_heart_ok m d _ X prediction row risk_score E Hp Hrow Hs).
  reflexivity.
Qed.

Lemma model_called_once_on_one_table_witness :
  exists X,
    snd (input_df sample_observation) = Ok X
    /\ fst (predict_heart (Some constant_pipeline) sample_observation) =
         [ Computed "sex"; Computed "cp"; Computed "fbs"; Computed "restecg";
           Computed "exang"; Computed "thal"; Predict X; PredictProba X ].
Proof.
  eexists. split; [ reflexivity | ].
  apply (model_called_once_on_one_table constant_pipeline sample_observation
           _ 1%Z [0.25; 0.75]%Q 0.75%Q); reflexivity.
Defined.

(** X10. A gender label that is neither "male" nor "female" up to case
    stops the handler at its first step: only [sex] has been evaluated, the
    gender [ValueError] is raised whatever the other labels are, and no
    answer is returned. *)
Theorem gender_error_comes_first (m : Pipeline) (d : HeartFeatures) :
  sex_in_domain d = false ->
  predict_heart (Some m) d =
    ( [ Computed "sex" ],
      Raise (ValueError "Invalid gender label: Must be 'Male' or 'Female'.") ).
Proof.
  unfold sex_in_domain. intros H. apply orb_false_iff in H as [Hm Hf].
  pose proof (sex_case_variant d) as Hs. rewrite Hm, Hf in Hs.
  unfold predict_heart, input_df. rewrite Hs. reflexivity.
Qed.

Lemma gender_error_comes_first_witness :
  sex_in_domain (with_sex_label "Unknown" unknown_thal_observation) = false
  /\ predict_heart (Some constant_pipeline)
       (with_sex_label "Unknown" unknown_thal_observation) =
       ( [ Computed "sex" ],
         Raise (ValueError "Invalid gender label: Must be 'Male' or 'Female'.") ).
Proof.
  split; [ reflexivity | ].
  apply (gender_error_comes_first constant_pipeline
           (with_sex_label "Unknown" unknown_thal_observation)).
  reflexivity.
Defined.

(** X11. Whatever the observation, the computed fields the handler has
    evaluated form an initial run of sex, cp, fbs, restecg, exang, thal:
    none is skipped, repeated or read out of order, and [sex] is always
    read. *)
Theorem mappings_run_in_table_order (d : HeartFeatures) :
  fst (input_df d) `prefix_of` mapping_events
  /\ head (fst (input_df d)) = Some (Computed "sex").
Proof.
  unfold input_df, mapping_events.
  destruct (sex d), (cp d), (restecg d), (exang d), (thal d); cbn;
    (split; [ eexists; reflexivity | reflexivity ]).
Qed.

(** X12. When the pipeline reports probabilities for fewer than two
    classes, the handler raises [IndexError] after both model calls and
    returns no answer. *)
Theorem too_few_classes_raises (m : Pipeline) (d : HeartFeatures)
    (X : DataFrame) (prediction : Z) (row : list Q) :
  snd (input_df d) = Ok X ->
  predict m X !! 0 = Some prediction ->
  predict_proba m X !! 0 = Some row ->
  (length row < 2)%nat ->
  exists msg,
    predict_heart (Some m) d =
      ( (mapping_events ++ [Predict X; PredictProba X])%list,
        Raise (IndexError msg) ).
Proof.
  intros HX Hp Hrow Hlen. pose proof (input_df_ok_trace d X HX) as Ht.
  destruct (input_df d) as [t r] eqn:E. cbn [fst snd] in *. subst t r.
  assert (Hs : row !! 1%nat = None) by (apply lookup_ge_None; lia).
  eexists. unfold predict_heart, index. rewrite E.
  unfold mbind, M_bind, bind, tell, ret, raise.
  rewrite Hp. cbv beta iota zeta. rewrite Hrow. cbv beta iota zeta.
  rewrite Hs. cbn [app]. reflexivity.
Qed.

Lemma too_few_classes_raises_witness :
  exists msg X,
    predict_heart
      (Some {| predict := fun _ => [0%Z]; predict_proba := fun _ => [[1.0%Q]] |})
      sample_observation =
      ( (mapping_events ++ [Predict X; PredictProba X])%list,
        Raise (IndexError msg) ).
Proof.
  destruct (too_few_classes_raises
              {| predict := fun _ => [0%Z]; predict_proba := fun _ => [[1.0%Q]] |}
              sample_observation
              {| columns := FEATURE_ORDER;
                 rows := [ [ VInt 63; VInt 1; VInt 3; VFloat 145; VFloat 233;
                             VInt 1; VInt 2; VFloat 150; VInt 0; VFloat 2.3;
                             VInt 0; VInt 0; VInt 2 ] ] |}
              0%Z [1.0%Q])
    as [msg H]; [ reflexivity | reflexivity | reflexivity | simpl; lia | ].
  exists msg. eexists. exact H.
Defined.



(** ** Rounding keeps a probability a probability *)

Lemma round_half_even_bounds (y : Q) (n : Z) :
  (0 <= y)%Q -> (y <= inject_Z n)%Q ->
  (0 <= round_half_even y <= n)%Z.
Proof.
  intros H0 Hn. unfold round_half_even.
  pose proof (Qfloor_le y) as Hlo.
  pose proof (Qfloor_resp_le _ _ H0) as Hf0.
  pose proof (Qfloor_resp_le _ _ Hn) as Hfn.
  change (Qfloor 0) with 0%Z in Hf0. rewrite Qfloor_Z in Hfn.
  set (f := Qfloor y) in *.
  assert (Hup : (1 # 2 <= y - inject_Z f)%Q -> (f + 1 <= n)%Z).
  { intros Hd. assert (Hlt : (inject_Z f < inject_Z n)%Q) by lra.
    rewrite <- Zlt_Qlt in Hlt. lia. }
  destruct (Qcompare_spec (y - inject_Z f) (1 # 2)) as [E | L | G].
  - destruct (Z.even f); [ lia | ].
    split; [ lia | ]. apply Hup. rewrite E. apply Qle_refl.
  - lia.
  - split; [ lia | ]. apply Hup. now apply Qlt_le_weak.
Qed.

(** X14. When the model's class-1 probability lies between 0 and 1, so
    does the rounded probability in the answer. *)
Theorem probability_stays_in_unit_interval (m : Pipeline) (d : HeartFeatures)
    (X : DataFrame) (prediction : Z) (row : list Q) (risk_score : Q) :
  snd (input_df d) = Ok X ->
  predict m X !! 0 = Some prediction ->
  predict_proba m X !! 0 = Some row ->
  row !! 1 = Some risk_score ->
  (0 <= risk_score)%Q -> (risk_score <= 1)%Q ->
  exists q : Q,
    snd (predict_heart (Some m) d) =
      Ok (JSONResponse 200
            (Content {[ "predicted_category" := VInt prediction;
                        "risk_score_probability" := VFloat q;
                        "risk_level" := VStr (risk_level_of prediction) ]}))
    /\ (0 <= q)%Q /\ (q <= 1)%Q.
Proof.
  intros HX Hp Hrow Hs H0 H1. exists (py_round risk_score 4).
  destruct (input_df d) as [t r] eqn:E. cbn [snd] in HX. subst r.
  rewrite (predict_heart_ok m d t X prediction row risk_score E Hp Hrow Hs).
  split; [ reflexivity | ].
  assert (Hb : (0 <= round_half_even (risk_score * inject_Z 10000) <= 10000)%Z).
  { apply round_half_even_bounds; change (inject_Z 10000) with 10000%Q; lra. }
  unfold py_round. change (Z.to_pos (10 ^ 4)) with 10000%positive.
  change (10 ^ 4)%Z with 10000%Z.
  unfold Qle; cbn [Qnum Qden]. lia.
Qed.

Lemma probability_stays_in_unit_interval_witness :
  exists q : Q,
    snd (predict_heart (Some constant_pipeline) sample_observation) =
      Ok (JSONResponse 200
            (Content {[ "predicted_category" := VInt 1;
                        "risk_score_probability" := VFloat q;
                        "risk_level" := VStr (risk_level_of 1) ]}))
    /\ (0 <= q)%Q /\ (q <= 1)%Q.
Proof.
  eapply (probability_stays_in_unit_interval constant_pipeline
            sample_observation _ 1%Z [0.25; 0.75]%Q 0.75%Q);
    try reflexivity; unfold Qle; simpl; lia.
Defined.

(** ** The client against the service *)

(** X15. Whatever answer the client gets to render was produced under a
    loaded model from an observation with every field in its domain, and
    is the object with the three members the display reads. *)
Theorem rendered_answer_origin (model : option Pipeline) (b : HeartFeatures)
    (result : gmap string value) :
  predict_risk (snd (post_predict model b)) = Some result ->
  exists m prediction risk_score,
    model = Some m
    /\ valid_observation b = true
    /\ result = {[ "predicted_category" := VInt prediction;
                   "risk_score_probability" := VFloat (py_round risk_score 4);
                   "risk_level" := VStr (risk_level_of prediction) ]}.
Proof.
  unfold post_predict, valid_observation.
  destruct (in_declared_ranges b) eqn:R.
  - rewrite (model_validate_ok b R).
    destruct model as [m|]; [ | discriminate ].
    destruct (predict_heart (Some m) b) as [t [r | e]] eqn:E;
      [ | discriminate ].
    pose proof (predict_heart_ok_labels m b t r E) as L.
    apply predict_heart_ok_inv in E
      as (X & p & row & s & _ & _ & _ & _ & ->).
    cbn [snd predict_risk]. intros [= <-]. exists m, p, s. auto.
  - destruct (model_validate_errors b R) as (errs & -> & _). discriminate.
Qed.

Lemma rendered_answer_origin_witness :
  exists m prediction risk_score,
    Some constant_pipeline = Some m
    /\ valid_observation sample_observation = true
    /\ ({[ "predicted_category" := VInt 1;
           "risk_score_probability" := VFloat (7500 # 10000);
           "risk_level" := VStr "High Risk" ]} : gmap string value)
       = {[ "predicted_category" := VInt prediction;
            "risk_score_probability" := VFloat (py_round risk_score 4);
            "risk_level" := VStr (risk_level_of prediction) ]}.
Proof.
  apply (rendered_answer_origin (Some constant_pipeline) sample_observation).
  reflexivity.
Defined.

(** X16. The payload the client sends has one member for each field the
    request model declares, under the declared name and holding that
    field's value, and no other member. *)
Theorem payload_matches_declared_fields (f : HeartFeatures) :
  Forall (fun fi => Form.input_data f !! name fi = Some (get fi f)) model_fields
  /\ size (Form.input_data f) = length model_fields.
Proof.
  split.
  - unfold model_fields. repeat constructor; vm_compute; reflexivity.
  - vm_compute. reflexivity.
Qed.

Lemma Qle_bool_trans_l (a a' x : Q) :
  (a' <= a)%Q -> Qle_bool a x = true -> Qle_bool a' x = true.
Proof. rewrite !Qle_bool_iff. intros. lra. Qed.

Lemma Qle_bool_trans_r (a a' x : Q) :
  (a <= a')%Q -> Qle_bool x a = true -> Qle_bool x a' = true.
Proof. rewrite !Qle_bool_iff. intros. lra. Qed.

Lemma can_submit_valid (f : HeartFeatures) :
  Form.can_submit f = true ->
  model_validate f = inr f /\ valid_observation f = true.
Proof.
  unfold Form.can_submit, Form.returns_Z, Form.returns_Q, Form.offers.
  cbn [Form.min_value Form.max_value Form.options Form.age_input
       Form.trestbps_input Form.chol_input Form.fbs_raw_input
       Form.thalachh_input Form.oldpeak_input Form.sex_box Form.cp_box
       Form.restecg_box Form.exang_box Form.thal_box Form.ca_box
       Form.slope_box].
  rewrite !andb_true_iff. intros H. decompose [and] H. clear H.
  assert (R : in_declared_ranges f = true).
  { unfold in_declared_ranges. rewrite !andb_true_iff.
    repeat split; try assumption;
      try (eapply Qle_bool_trans_l; [ | eassumption ];
           unfold Qle; simpl; lia);
      try (eapply Qle_bool_trans_r; [ | eassumption ];
           unfold Qle; simpl; lia). }
  split; [ exact (model_validate_ok f R) | ].
  unfold valid_observation. rewrite R. cbn [andb].
  unfold labels_in_domain, sex_in_domain, exang_in_domain.
  unfold cp_options, restecg_options, thal_options.
  repeat match goal with
         | H : bool_decide (?l ∈ ?o) = true |- context [bool_decide (?l ∈ ?o)] =>
             rewrite H
         end.
  repeat match goal with
         | H : bool_decide (_ ∈ _) = true |- _ =>
             apply bool_decide_eq_true in H;
             rewrite !elem_of_cons, elem_of_nil in H
         end.
  repeat match goal with
         | H : sex_label f = _ \/ _ |- _ => destruct H as [-> | H]
         | H : exang_label f = _ \/ _ |- _ => destruct H as [-> | H]
         | H : False |- _ => destruct H
         end; reflexivity.
Qed.

(** X17. Whatever the form lets the user submit is in the domain of the
    service: the body passes validation and every label is one its mapping
    accepts. *)
Theorem form_submissions_are_valid (f : HeartFeatures) :
  Form.can_submit f = true ->
  model_validate f = inr f /\ valid_observation f = true.
Proof. exact (can_submit_valid f). Qed.

Lemma form_submissions_are_valid_witness :
  Form.can_submit Form.untouched = true
  /\ model_validate Form.untouched = inr Form.untouched
  /\ valid_observation Form.untouched = true.
Proof.
  split; [ reflexivity | ].
  apply (form_submissions_are_valid Form.untouched). reflexivity.
Defined.

Lemma answer_members (prediction : value) (probability : value)
    (level : value) :
  let c : gmap string value :=
    {[ "predicted_category" := prediction;
       "risk_score_probability" := probability;
       "risk_level" := level ]} in
  (size c =? 0)%nat = false
  /\ c !! "risk_level" = Some level
  /\ c !! "risk_score_probability" = Some probability.
Proof. vm_compute. auto. Qed.

(** X18. End to end: for a submission of the form, under a loaded model
    that yields a class and a class-1 probability, the display raises
    nothing and shows the red warning exactly when the class is 1 (the
    green notice otherwise), the risk level as the assessment, and the
    rounded probability as a percentage. *)
Theorem submission_is_rendered (m : Pipeline) (f : HeartFeatures)
    (X : DataFrame) (prediction : Z) (row : list Q) (risk_score : Q) :
  Form.can_submit f = true ->
  snd (input_df f) = Ok X ->
  predict m X !! 0 = Some prediction ->
  predict_proba m X !! 0 = Some row ->
  row !! 1 = Some risk_score ->
  Client.results_display (predict_risk (snd (post_predict (Some m) f))) =
    inr (Some
      {| Client.subheader := "Prediction Results";
         Client.banner :=
           if (prediction =? 1)%Z
           then st_error "🔴 WARNING: High Risk DETECTED"
           else st_success "🟢 Low Risk DETECTED";
         Client.assessment :=
           if (prediction =? 1)%Z then "High Risk" else "Low Risk";
         Client.probability :=
           Client.format_2f (py_round risk_score 4 * 100%Q) ++ "%";
         Client.info := "Remember: This prediction is generated by an ML model and is NOT a substitute for professional medical advice." |}).
Proof.
  intros Hform HX Hp Hrow Hs.
  destruct (can_submit_valid f Hform) as [Hv _].
  unfold post_predict. rewrite Hv.
  destruct (input_df f) as [t r] eqn:E. cbn [snd] in HX. subst r.
  rewrite (predict_heart_ok m f t X prediction row risk_score E Hp Hrow Hs).
  cbn [snd predict_risk Z.leb Z.compare Pos.compare Pos.compare_cont].
  unfold Client.results_display.
  destruct (answer_members (VInt prediction) (VFloat (py_round risk_score 4))
              (VStr (risk_level_of prediction))) as (-> & -> & ->).
  unfold Client.percent, risk_level_of.
  destruct (prediction =? 1)%Z; reflexivity.
Qed.

Lemma submission_is_rendered_witness :
  Client.results_display
    (predict_risk (snd (post_predict (Some constant_pipeline) Form.untouched))) =
    inr (Some
      {| Client.subheader := "Prediction Results";
         Client.banner := st_error "🔴 WARNING: High Risk DETECTED";
         Client.assessment := "High Risk";
         Client.probability := "75.00%";
         Client.info := "Remember: This prediction is generated by an ML model and is NOT a substitute for professional medical advice." |}).
Proof.
  exact (submission_is_rendered constant_pipeline Form.untouched
           {| columns := FEATURE_ORDER;
              rows := [ [ VInt 50; VInt 1; VInt 3; VFloat 120.0; VFloat 200.0;
                          VInt 0; VInt 0; VFloat 150.0; VInt 0; VFloat 1.0;
                          VInt 1; VInt 0; VInt 1 ] ] |}
           1%Z [0.25; 0.75]%Q 0.75%Q
           eq_refl eq_refl eq_refl eq_refl eq_refl).
Defined.

Lemma round_half_even_comp (x y : Q) :
  (x == y)%Q -> round_half_even x = round_half_even y.
Proof.
  intros H. unfold round_half_even. rewrite (Qfloor_comp x y H).
  assert (Hc : ((x - inject_Z (Qfloor y) ?= 1 # 2)
                = (y - inject_Z (Qfloor y) ?= 1 # 2))%Q)
    by (now rewrite H).
  now rewrite Hc.
Qed.

Lemma round_half_even_Z (k : Z) : round_half_even (inject_Z k) = k.
Proof.
  unfold round_half_even. rewrite Qfloor_Z.
  assert (Hc : (inject_Z k - inject_Z k ?= 1 # 2)%Q = Lt).
  { rewrite <- Qlt_alt. generalize (inject_Z k). intros q. lra. }
  now rewrite Hc.
Qed.

(** X19. The percentage the client shows carries every digit of the
    probability the service sent: for a rounded probability [k/10000] it
    reads [k/100] with the two digits of [k mod 100] after the point, so
    the client's two-decimal format never rounds a second time. *)
Theorem percent_shows_rounded_probability (risk_score : Q) :
  (0 <= risk_score)%Q ->
  let k := round_half_even (risk_score * inject_Z 10000) in
  py_round risk_score 4 = (k # 10000)%Q
  /\ Client.percent (VFloat (py_round risk_score 4)) =
       inr ((Client.digits (k / 100) ++ "."
             ++ Client.digits (k mod 100 / 10) ++ Client.digits (k mod 10))
            ++ "%").
Proof.
  intros H0 k. split; [ reflexivity | ].
  assert (Hk : (0 <= k)%Z).
  { apply (round_half_even_bounds _ (Qceiling (risk_score * inject_Z 10000)));
      [ change (inject_Z 10000) with 10000%Q; lra | apply Qle_ceiling ]. }
  unfold Client.percent, Client.format_2f, py_round.
  change (Z.to_pos (10 ^ 4)) with 10000%positive.
  change (10 ^ 4)%Z with 10000%Z. fold k.
  assert (E : ((k # 10000) * 100 * 100 == inject_Z k)%Q)
    by (unfold Qeq; simpl; lia).
  rewrite (round_half_even_comp _ _ E), round_half_even_Z.
  rewrite (Z.abs_eq k Hk).
  destruct ((k # 10000) * 100 ?= 0)%Q eqn:C; try reflexivity.
  apply Qlt_alt in C. unfold Qlt in C. simpl in C. lia.
Qed.

Lemma percent_shows_rounded_probability_witness :
  py_round 0.75 4 = (7500 # 10000)%Q
  /\ Client.percent (VFloat (py_round 0.75 4)) = inr "75.00%".
Proof.
  apply (percent_shows_rounded_probability 0.75%Q).
  unfold Qle; simpl; lia.
Defined.


(** ** The containment test on arbitrary levels *)

Lemma prefix_app (sub s : string) :
  String.prefix sub s = true <-> exists post, s = sub ++ post.
Proof.
  revert s. induction sub as [|a sub IH]; intros [|b s]; simpl.
  - split; [ eauto | reflexivity ].
  - split; [ eauto | reflexivity ].
  - split; [ discriminate | intros [post H]; discriminate H ].
  - destruct (Ascii.ascii_dec a b) as [-> | Hne].
    + rewrite IH. split; intros [post H]; exists post.
      * now rewrite H.
      * now injection H.
    + split; [ discriminate | intros [post H] ].
      change (String b s = String a (sub ++ post)) in H. congruence.
Qed.

Lemma contains_app (sub s : string) :
  Str.contains sub s = true <-> exists pre post, s = pre ++ sub ++ post.
Proof.
  induction s as [|c s IH]; cbn [Str.contains]; rewrite orb_true_iff.
  - rewrite prefix_app. split.
    + intros [[post H] | H]; [ | discriminate ]. exists "", post. exact H.
    + intros (pre & post & H). left. destruct pre as [|p pre].
      * exists post. exact H.
      * discriminate H.
  - rewrite prefix_app, IH. split.
    + intros [[post H] | (pre & post & H)].
      * exists "", post. exact H.
      * exists (String c pre), post. simpl. now rewrite H.
    + intros (pre & post & H). destruct pre as [|p pre].
      * left. exists post. exact H.
      * right. exists pre, post. simpl in H. now injection H.
Qed.

(** X21. On an arbitrary level the display shows the red warning exactly
    when "High Risk" occurs somewhere in it, and the green notice
    otherwise; so a level such as "Very High Risk" is shown red, where a
    test by equality would show it green. *)
Theorem red_banner_iff_contains (level : string) :
  (risk_alert level = st_error ("🔴 WARNING: " ++ level ++ " DETECTED")
   <-> exists pre post, level = pre ++ "High Risk" ++ post)
  /\ (risk_alert level = st_success ("🟢 " ++ level ++ " DETECTED")
      <-> ~ exists pre post, level = pre ++ "High Risk" ++ post)
  /\ risk_alert "Very High Risk" <> risk_alert_by_equality "Very High Risk".
Proof.
  rewrite <- contains_app. unfold risk_alert.
  destruct (Str.contains "High Risk" level); repeat split;
    intros; try discriminate; try congruence.
Qed.
